(** * BentoML: the local runner adapter and the conda channel list

    A shallow embedding of [bentoml/_internal/runner/local.py]
    ([LocalRunner]) and of [CondaEnv.add_channels] from
    [bentoml/service/env.py], with the properties of the design
    document stated and settled against them. *)

From Stdlib Require Import List String Ascii ZArith Bool Arith Lia.
Import ListNotations.
Local Open Scope string_scope.
Local Open Scope list_scope.

Set Implicit Arguments.
Set Warnings "-register-all".

(** ** Python values and exceptions *)

(** The values that travel through the adapter.  [VGen pending] is a
    generator object that will yield [pending] and then finish;
    [VIter pending] is an iterator object that is no generator (what
    [iter], [map] or [zip] return), to yield [pending].  Either is
    consumed by the one [list(...)] call that [run] may make of it and
    is never touched again, so no store of their states is needed. *)
Inductive value : Type :=
| VNone
| VInt (n : Z)
| VStr (s : string)
| VList (items : list value)
| VGen (pending : list value)
| VIter (pending : list value).

Inductive exn : Type :=
| RuntimeError (msg : string)
| TypeError (msg : string)
| IndexError (msg : string)
| StopIteration
| UserError (cls msg : string).

Inductive result (A : Type) : Type :=
| Ok (a : A)
| Raise (e : exn).
Arguments Ok {A} a.
Arguments Raise {A} e.

Definition result_bind {A B} (r : result A) (k : A -> result B) : result B :=
  match r with
  | Ok a => k a
  | Raise e => Raise e
  end.

(** [isinstance(v, GeneratorType)] *)
Definition isinstance_GeneratorType (v : value) : bool :=
  match v with
  | VGen _ => true
  | _ => false
  end.

Definition type_name (v : value) : string :=
  match v with
  | VNone => "NoneType"
  | VInt _ => "int"
  | VStr _ => "str"
  | VList _ => "list"
  | VGen _ => "generator"
  | VIter _ => "list_iterator"
  end.

(** [list(v)] *)
Definition py_list (v : value) : result value :=
  match v with
  | VGen pending => Ok (VList pending)
  | VIter pending => Ok (VList pending)
  | VList items => Ok (VList items)
  | VStr s => Ok (VList (map (fun c => VStr (String c EmptyString)) (list_ascii_of_string s)))
  | _ => Raise (TypeError ("'" ++ type_name v ++ "' object is not iterable")%string)
  end.

(** [v[i]] for a non-negative index *)
Definition getitem (v : value) (i : nat) : result value :=
  match v with
  | VList items =>
      match nth_error items i with
      | Some x => Ok x
      | None => Raise (IndexError "list index out of range")
      end
  | VStr s =>
      match String.get i s with
      | Some c => Ok (VStr (String c EmptyString))
      | None => Raise (IndexError "string index out of range")
      end
  | _ => Raise (TypeError ("'" ++ type_name v ++ "' object is not subscriptable")%string)
  end.

(** ** Call parameters *)

(** Modelled from the spec: [Params] of [runner/utils.py] is not part
    of the sources at hand.  It is the spec's ParamBundle: an ordered
    sequence of positional values plus named values in insertion order;
    its structural transform applies a function to every positional and
    every named value and returns a new bundle of the same shape. *)
Record Params : Type := mkParams {
  args : list value;
  kwargs : list (string * value)
}.

Fixpoint map_result {A B} (f : A -> result B) (l : list A) : result (list B) :=
  match l with
  | [] => Ok []
  | a :: l' =>
      result_bind (f a) (fun b =>
      result_bind (map_result f l') (fun bs => Ok (b :: bs)))
  end.

(** Modelled from the spec: [Params.map], the structural transform.
    The function may raise; positional values are transformed first,
    then the named ones, and the first failure propagates. *)
Definition Params_map (f : value -> result value) (p : Params) : result Params :=
  result_bind (map_result f (args p)) (fun a =>
  result_bind (map_result (fun kv => result_bind (f (snd kv)) (fun v => Ok (fst kv, v)))
                 (kwargs p)) (fun k =>
  Ok (mkParams a k))).

(** ** The wrapped unit and the adapter *)

Inductive RunnerState : Type := INIT | SETTING | SET.

Definition RunnerState_eqb (a b : RunnerState) : bool :=
  match a, b with
  | INIT, INIT | SETTING, SETTING | SET, SET => true
  | _, _ => false
  end.

(** The position of a state on the one-way road INIT, SETTING, SET. *)
Definition rank (s : RunnerState) : nat :=
  match s with
  | INIT => 0
  | SETTING => 1
  | SET => 2
  end.

(** A batch axis: an index, or no axis. *)
Definition axis : Type := option Z.

Record BatchOptions : Type := mkBatchOptions {
  input_batch_axis : axis;
  output_batch_axis : axis
}.

(** What the adapter does that an observer can see: assignments to
    [self._state] and calls into the wrapped unit. *)
Inductive event : Type :=
| EvState (s : RunnerState)
| EvSetup
| EvRunBatch (p : Params)
| EvRun (p : Params).

(** Projections of a trace: how often the unit's setup routine was
    entered, how often an execution routine was entered, and the
    values that were assigned to [self._state], in order. *)
Definition is_setup (e : event) : bool :=
  match e with
  | EvSetup => true
  | _ => false
  end.

Definition is_execution (e : event) : bool :=
  match e with
  | EvRunBatch _ | EvRun _ => true
  | _ => false
  end.

Definition setup_calls (tr : list event) : nat := List.length (filter is_setup tr).

Definition execution_calls (tr : list event) : nat := List.length (filter is_execution tr).

Fixpoint state_writes (tr : list event) : list RunnerState :=
  match tr with
  | [] => []
  | EvState s :: tr' => s :: state_writes tr'
  | _ :: tr' => state_writes tr'
  end.

(** A succession of states that only moves forward. *)
Fixpoint forward (l : list RunnerState) : Prop :=
  match l with
  | a :: (b :: _) as l' => rank a < rank b /\ forward l'
  | _ => True
  end.

(** The single results a conversion recovered, when it returned a list
    or a generator. *)
Definition singles_of (v : value) : option (list value) :=
  match v with
  | VList items => Some items
  | VGen pending => Some pending
  | _ => None
  end.

(** ** The conda environment *)

(** [self._conda_env]: the YAML mapping with the keys [name],
    [channels] and [dependencies]. *)
Record CondaEnv : Type := mkCondaEnv {
  conda_name : string;
  conda_channels : list string;
  conda_dependencies : list string
}.

(** [DEFAULT_CONDA_ENV_BASE_YAML], loaded. *)
Definition DEFAULT_CONDA_ENV_BASE : CondaEnv :=
  mkCondaEnv "bentoml-default-conda-env" ["conda-forge"; "defaults"] ["pip"].

(** [x in l] on a list of strings *)
Definition contains (l : list string) (x : string) : bool :=
  existsb (String.eqb x) l.

(** One round of the loop of [add_channels]: the whole argument list
    [channels] is appended when [channel_name] is missing. *)
Definition add_channels_step (channels : list string) (self : CondaEnv)
    (channel_name : string) : CondaEnv :=
  if negb (contains (conda_channels self) channel_name)
  then mkCondaEnv (conda_name self) (conda_channels self ++ channels)
         (conda_dependencies self)
  else self.

(** [CondaEnv.add_channels].  When [channels] is the very list object
    of the environment every name is found and nothing is appended, so
    the list under iteration never grows. *)
Definition add_channels (channels : list string) (self : CondaEnv) : CondaEnv :=
  fold_left (add_channels_step channels) channels self.

(** The channel list as the design document's sentence describes it:
    [channels] appended once per name of [channels] that the
    environment did not have before the call. *)
Definition channels_as_described (channels : list string) (self : CondaEnv)
    : list string :=
  conda_channels self
  ++ List.concat (repeat channels
               (List.length (filter (fun c => negb (contains (conda_channels self) c))
                          channels))).

Section Adapter.

(** The internal state of the wrapped unit (a loaded model, say). *)
Variable U : Type.

(** The wrapped unit [self._runner]: the two [isinstance] answers the
    adapter asks for, and the unit's entry points, each of which may
    change the unit and may raise. *)
Record wrapped_runner : Type := mkRunner {
  isinstance_Runner : bool;
  isinstance_SimpleRunner : bool;
  _setup : U -> U * result unit;
  _run_batch : Params -> U -> U * result value;
  _run : Params -> U -> U * result value;
  batch_options : BatchOptions
}.

Record LocalRunner : Type := mkLocalRunner {
  _state : RunnerState;
  _runner : wrapped_runner;
  unit_state : U;
  trace : list event
}.

(** [AutoContainer] of [runner/container.py] is not part of the
    sources at hand; its two conversions are taken as parameters. *)
Variable singles_to_batch : list value -> axis -> result value.
Variable batch_to_singles : value -> axis -> result value.

(** *** Computations on the adapter: state and exceptions *)

Definition M (A : Type) : Type := LocalRunner -> LocalRunner * result A.

Definition ret {A} (a : A) : M A := fun self => (self, Ok a).

Definition raise {A} (e : exn) : M A := fun self => (self, Raise e).

Definition lift {A} (r : result A) : M A := fun self => (self, r).

Definition bind {A B} (m : M A) (k : A -> M B) : M B :=
  fun self =>
    match m self with
    | (self', Ok a) => k a self'
    | (self', Raise e) => (self', Raise e)
    end.

Notation "x <- m ;; k" := (bind m (fun x => k))
  (at level 61, m at next level, right associativity).
Notation "m ;; k" := (bind m (fun _ => k))
  (at level 61, right associativity).

Definition set_state (s : RunnerState) : M unit :=
  fun self =>
    (mkLocalRunner s (_runner self) (unit_state self) (trace self ++ [EvState s]),
     Ok tt).

Definition call_setup : M unit :=
  fun self =>
    let (u, r) := _setup (_runner self) (unit_state self) in
    (mkLocalRunner (_state self) (_runner self) u (trace self ++ [EvSetup]), r).

Definition call_run_batch (p : Params) : M value :=
  fun self =>
    let (u, r) := _run_batch (_runner self) p (unit_state self) in
    (mkLocalRunner (_state self) (_runner self) u (trace self ++ [EvRunBatch p]), r).

Definition call_run (p : Params) : M value :=
  fun self =>
    let (u, r) := _run (_runner self) p (unit_state self) in
    (mkLocalRunner (_state self) (_runner self) u (trace self ++ [EvRun p]), r).

(** *** [LocalRunner] *)

Definition setup : M unit :=
  fun self =>
    if negb (RunnerState_eqb (_state self) INIT) then ret tt self
    else (set_state SETTING ;; call_setup ;; set_state SET) self.

(** The raise of [run_batch] on a simple runner. *)
Definition UnsupportedOperation : exn :=
  RuntimeError "shall not call run_batch on a simple runner".

Definition run (p : Params) : M value :=
  fun self =>
    ((if RunnerState_eqb (_state self) INIT then setup else ret tt) ;;
     fun self =>
       if isinstance_Runner (_runner self) then
         (params <- lift (Params_map
                            (fun i => singles_to_batch [i]
                                        (input_batch_axis (batch_options (_runner self))))
                            p) ;;
          batch_result <- call_run_batch params ;;
          single_results <- lift (batch_to_singles batch_result
                                    (output_batch_axis (batch_options (_runner self)))) ;;
          single_results <- (if isinstance_GeneratorType single_results
                             then lift (py_list single_results)
                             else ret single_results) ;;
          lift (getitem single_results 0)) self
       else if isinstance_SimpleRunner (_runner self) then call_run p self
       else ret VNone self) self.

Definition run_batch (p : Params) : M value :=
  fun self =>
    ((if RunnerState_eqb (_state self) INIT then setup else ret tt) ;;
     fun self =>
       if isinstance_Runner (_runner self) then call_run_batch p self
       else if isinstance_SimpleRunner (_runner self) then raise UnsupportedOperation self
       else ret VNone self) self.

(** *** The cooperative-suspension entry points *)

(** A coroutine, resumed on an adapter, either finishes with a result
    or an exception, or gives control back with the rest of its body. *)
Inductive resumption (A : Type) : Type :=
| Finished (r : result A)
| Suspended (rest : LocalRunner -> LocalRunner * resumption A).

Definition coroutine (A : Type) : Type := LocalRunner -> LocalRunner * resumption A.

(** [await c]: resume until finished, counting the suspensions. *)
Fixpoint drive {A} (fuel : nat) (c : coroutine A) (self : LocalRunner)
    : option (LocalRunner * result A * nat) :=
  match fuel with
  | 0 => None
  | S fuel' =>
      match c self with
      | (self', Finished r) => Some (self', r, 0)
      | (self', Suspended rest) =>
          match drive fuel' rest self' with
          | Some (self'', r, n) => Some (self'', r, S n)
          | None => None
          end
      end
  end.

(** How the body of an [async def] ends: with its value or its
    exception, except that a [StopIteration] leaving the body is
    replaced by a [RuntimeError]. *)
Definition coroutine_exit {A} (r : result A) : result A :=
  match r with
  | Raise StopIteration => Raise (RuntimeError "coroutine raised StopIteration")
  | _ => r
  end.

Definition async_run (p : Params) : coroutine value :=
  fun self => let (self', r) := run p self in (self', Finished (coroutine_exit r)).

Definition async_run_batch (p : Params) : coroutine value :=
  fun self => let (self', r) := run_batch p self in (self', Finished (coroutine_exit r)).

(** *** Successions of calls *)

Inductive call : Type :=
| CallSetup
| CallRun (p : Params)
| CallRunBatch (p : Params).

(** The adapter after a call, whether the call returned or raised. *)
Definition perform (c : call) (self : LocalRunner) : LocalRunner :=
  match c with
  | CallSetup => fst (setup self)
  | CallRun p => fst (run p self)
  | CallRunBatch p => fst (run_batch p self)
  end.

Definition perform_all (cs : list call) (self : LocalRunner) : LocalRunner :=
  fold_left (fun s c => perform c s) cs self.

(** The adapter as [run] and [run_batch] find it after their opening
    [if self._state is RunnerState.INIT: self.setup()]. *)
Definition after_setup (self : LocalRunner) : LocalRunner :=
  if RunnerState_eqb (_state self) INIT then fst (setup self) else self.

(** The setup that a call would trigger does not raise. *)
Definition setup_succeeds (self : LocalRunner) : Prop :=
  _state self = INIT -> snd (_setup (_runner self) (unit_state self)) = Ok tt.

(** *** What the properties ask of the container and of the unit *)

(** The container of plain Python sequences: one value is wrapped into
    the one-element list, a batch that is no generator is handed on as
    it is, and a generator is either handed on as it is or handed on
    as the list of what it yields. *)
Record plain_container : Prop := {
  wrap_single : forall v ax, singles_to_batch [v] ax = Ok (VList [v]);
  hand_on : forall batch ax,
    isinstance_GeneratorType batch = false -> batch_to_singles batch ax = Ok batch;
  split_lazy : forall pending ax,
    batch_to_singles (VGen pending) ax = Ok (VGen pending) \/
    batch_to_singles (VGen pending) ax = Ok (VList pending)
}.

(** What one call does to the wrapped unit through its execution
    routines, the setup routine left out: the unit state after the
    routine that the dispatch of the call enters, if it enters one. *)
Definition execution_effect (r : wrapped_runner) (c : call) (u : U) : U :=
  match c with
  | CallSetup => u
  | CallRun p =>
      if isinstance_Runner r then
        match Params_map (fun i => singles_to_batch [i]
                                     (input_batch_axis (batch_options r))) p with
        | Ok params => fst (_run_batch r params u)
        | Raise _ => u
        end
      else if isinstance_SimpleRunner r then fst (_run r p u)
      else u
  | CallRunBatch p =>
      if isinstance_Runner r then fst (_run_batch r p u) else u
  end.

Definition executions_only (r : wrapped_runner) (cs : list call) (u : U) : U :=
  fold_left (fun u c => execution_effect r c u) cs u.


End Adapter.

Arguments ret {U A} a _.
Arguments raise {U A} e _.
Arguments lift {U A} r _.
Arguments setup {U} _.
Arguments run {U} singles_to_batch batch_to_singles p _.
Arguments run_batch {U} p _.
Arguments async_run {U} singles_to_batch batch_to_singles p _.
Arguments async_run_batch {U} p _.
Arguments Finished {U A} r.
Arguments Suspended {U A} rest.

(** ** The conda environment, further operations *)

Definition set_name (name : string) (self : CondaEnv) : CondaEnv :=
  mkCondaEnv name (conda_channels self) (conda_dependencies self).

(** [CondaEnv.add_conda_dependencies]: the new ones go in front. *)
Definition add_conda_dependencies (conda_dependencies' : list string) (self : CondaEnv)
    : CondaEnv :=
  mkCondaEnv (conda_name self) (conda_channels self)
    (conda_dependencies' ++ conda_dependencies self).

(** Truth value of an optional string argument: [None] and the empty
    string are false. *)
Definition truthy (o : option string) : bool :=
  match o with
  | Some (String _ _) => true
  | _ => false
  end.

(** Truth value of an optional list argument. *)
Definition truthy_list (o : option (list string)) : bool :=
  match o with
  | Some (_ :: _) => true
  | _ => false
  end.

Definition BentoMLException (msg : string) : exn := UserError "BentoMLException" msg.

Definition FileNotFoundError (path : string) : exn := UserError "FileNotFoundError" path.

Definition IsADirectoryError (path : string) : exn := UserError "IsADirectoryError" path.

Definition newline : ascii := "010"%char.

(** [s.split("\n")] *)
Fixpoint split_newline (s : string) : list string :=
  match s with
  | EmptyString => [EmptyString]
  | String c s' =>
      if Ascii.eqb c newline then EmptyString :: split_newline s'
      else match split_newline s' with
           | piece :: pieces => String c piece :: pieces
           | [] => [String c EmptyString]
           end
  end.

(** ["\n".join(l)] *)
Definition join_newline (l : list string) : string :=
  String.concat (String newline EmptyString) l.

(** A [dict] with string keys, as the list of its items in insertion
    order.  [d[k] = v] replaces the value of a key that is there, where
    it is, and puts a new key at the end. *)
Fixpoint dict_set (V : Type) (k : string) (v : V) (d : list (string * V))
    : list (string * V) :=
  match d with
  | [] => [(k, v)]
  | (k', v') :: d' =>
      if String.eqb k k' then (k, v) :: d' else (k', v') :: dict_set k v d'
  end.

Fixpoint dict_get (V : Type) (k : string) (d : list (string * V)) : option V :=
  match d with
  | [] => None
  | (k', v') :: d' => if String.eqb k k' then Some v' else dict_get k d'
  end.

(** [d.update(other)] *)
Definition dict_update (V : Type) (other d : list (string * V)) : list (string * V) :=
  fold_left (fun acc kv => dict_set (fst kv) (snd kv) acc) other d.

(** ** The service environment *)

Record BentoServiceEnv : Type := mkBentoServiceEnv {
  _python_version : string;
  _pip_index_url : option string;
  _pip_trusted_host : option string;
  _pip_extra_index_url : option string;
  _conda_env : CondaEnv;
  _pip_dependencies : list string;
  _auto_pip_dependencies : bool;
  _setup_sh : option string;
  _docker_base_image : string
}.

(** The values of the dictionary of [to_dict]. *)
Inductive env_value : Type :=
| EnvBytes (b : string)
| EnvList (l : list string)
| EnvConda (c : CondaEnv)
| EnvStr (s : string).

(** What [save] writes under the target directory, by file name: the
    mapping dumped to [environment.yml], the text of [python_version]
    and of [requirements.txt] before encoding, and the bytes of
    [setup.sh], which is made executable, when there is one. *)
Record saved_files : Type := mkSavedFiles {
  environment_yml : CondaEnv;
  python_version_file : string;
  requirements_txt : string;
  setup_sh_file : option string
}.

Definition set_pip_dependencies (l : list string) (self : BentoServiceEnv)
    : BentoServiceEnv :=
  mkBentoServiceEnv (_python_version self) (_pip_index_url self)
    (_pip_trusted_host self) (_pip_extra_index_url self) (_conda_env self) l
    (_auto_pip_dependencies self) (_setup_sh self) (_docker_base_image self).

Definition set_conda_env (c : CondaEnv) (self : BentoServiceEnv) : BentoServiceEnv :=
  mkBentoServiceEnv (_python_version self) (_pip_index_url self)
    (_pip_trusted_host self) (_pip_extra_index_url self) c (_pip_dependencies self)
    (_auto_pip_dependencies self) (_setup_sh self) (_docker_base_image self).

Definition set_setup_sh_field (b : option string) (self : BentoServiceEnv)
    : BentoServiceEnv :=
  mkBentoServiceEnv (_python_version self) (_pip_index_url self)
    (_pip_trusted_host self) (_pip_extra_index_url self) (_conda_env self)
    (_pip_dependencies self) (_auto_pip_dependencies self) b (_docker_base_image self).

Definition add_conda_channels (channels : list string) (self : BentoServiceEnv)
    : BentoServiceEnv :=
  set_conda_env (add_channels channels (_conda_env self)) self.

(** [BentoServiceEnv.add_conda_dependencies] *)
Definition service_add_conda_dependencies (conda_dependencies' : list string)
    (self : BentoServiceEnv) : BentoServiceEnv :=
  set_conda_env (add_conda_dependencies conda_dependencies' (_conda_env self)) self.

Definition add_python_packages (pip_dependencies : list string) (self : BentoServiceEnv)
    : BentoServiceEnv :=
  set_pip_dependencies (pip_dependencies ++ _pip_dependencies self) self.

(** ["{}{}".format(pkg_name, "=={}".format(pkg_version) if pkg_version else "")] *)
Definition requirement_line (pkg_name : string) (pkg_version : option string) : string :=
  match pkg_version with
  | Some (String c v) => (pkg_name ++ "==" ++ String c v)%string
  | _ => pkg_name
  end.

(** The line of an option of [requirements.txt], when the option is set. *)
Definition option_line (flag : string) (o : option string) : string :=
  match o with
  | Some (String c v) => (flag ++ String c v ++ String newline EmptyString)%string
  | _ => EmptyString
  end.

Definition to_dict (self : BentoServiceEnv) : list (string * env_value) :=
  let env_dict := [] in
  let env_dict :=
    if truthy (_setup_sh self)
    then dict_set "setup_sh" (EnvBytes (match _setup_sh self with
                                        | Some b => b
                                        | None => EmptyString
                                        end)) env_dict
    else env_dict in
  let env_dict :=
    match _pip_dependencies self with
    | _ :: _ => dict_set "pip_dependencies" (EnvList (_pip_dependencies self)) env_dict
    | [] => env_dict
    end in
  let env_dict := dict_set "conda_env" (EnvConda (_conda_env self)) env_dict in
  let env_dict := dict_set "python_version" (EnvStr (_python_version self)) env_dict in
  dict_set "docker_base_image" (EnvStr (_docker_base_image self)) env_dict.

Section ServiceEnv.

(** The world outside: the regular files by path with their bytes
    (paths that are no regular file are absent; a regular file can be
    read), the paths that are directories, the YAML loader on the
    bytes of an environment file (taken to carry the three keys), the
    UTF-8 codec, and the functions and constants of other modules of
    the package. *)
Variable files : string -> option string.
Variable directories : string -> bool.
Variable yaml_load : string -> CondaEnv.
Variable utf8_decode : string -> result string.
Variable utf8_encode : string -> string.
Variable PYTHON_VERSION : string.
Variable get_bentoml_deploy_version : string.
Variable default_docker_base_image : string.
Variable parse_requirement_string : string -> string * option string.

(** [CondaEnv.__init__] *)
Definition CondaEnv_init (name : option string) (channels dependencies : option (list string))
    (default_env_yaml_file : option string) : result CondaEnv :=
  result_bind
    (match default_env_yaml_file with
     | Some (String c path) =>
         match files (String c path) with
         | None =>
             Raise (BentoMLException
                      ("Can not find conda environment config yaml file at: `"
                       ++ String c path ++ "`")%string)
         | Some content => Ok (yaml_load content)
         end
     | _ => Ok DEFAULT_CONDA_ENV_BASE
     end)
    (fun self =>
       let self := match name with
                   | Some (String c n) => set_name (String c n) self
                   | _ => self
                   end in
       let self := match channels with
                   | Some (c :: cs) => add_channels (c :: cs) self
                   | _ => self
                   end in
       let self := match dependencies with
                   | Some (d :: ds) => add_conda_dependencies (d :: ds) self
                   | _ => self
                   end in
       Ok self).

Definition set_setup_sh (setup_sh_path_or_content : option string)
    (self : BentoServiceEnv) : BentoServiceEnv :=
  let self := set_setup_sh_field None self in
  match setup_sh_path_or_content with
  | Some (String c s) =>
      match files (String c s) with
      | Some content => set_setup_sh_field (Some content) self
      | None => set_setup_sh_field (Some (utf8_encode (String c s))) self
      end
  | _ => self
  end.

Definition add_packages_from_requirements_txt_file (requirements_txt_path : string)
    (self : BentoServiceEnv) : result BentoServiceEnv :=
  match files requirements_txt_path with
  | None =>
      if directories requirements_txt_path
      then Raise (IsADirectoryError requirements_txt_path)
      else Raise (FileNotFoundError requirements_txt_path)
  | Some content =>
      result_bind (utf8_decode content) (fun text =>
      Ok (add_python_packages (split_newline text) self))
  end.

(** [BentoServiceEnv.__init__].  The attributes that are assigned later
    in the body ([_auto_pip_dependencies], [_setup_sh],
    [_docker_base_image]) hold a placeholder until then; nothing reads
    them before. *)
Definition BentoServiceEnv_init (pip_dependencies : option (list string))
    (pip_index_url pip_trusted_host pip_extra_index_url : option string)
    (auto_pip_dependencies : bool) (requirements_txt_file : option string)
    (conda_channels' conda_dependencies' : option (list string))
    (conda_env_yml_file setup_sh docker_base_image : option string)
    : result BentoServiceEnv :=
  result_bind (CondaEnv_init None conda_channels' conda_dependencies' conda_env_yml_file)
    (fun conda =>
  let self :=
    mkBentoServiceEnv PYTHON_VERSION pip_index_url pip_trusted_host pip_extra_index_url
      conda [("bentoml==" ++ get_bentoml_deploy_version)%string] false None
      EmptyString in
  let self := match pip_dependencies with
              | Some (d :: ds) => add_python_packages (d :: ds) self
              | _ => self
              end in
  result_bind
    (match requirements_txt_file with
     | Some (String c path) =>
         add_packages_from_requirements_txt_file (String c path) self
     | _ => Ok self
     end)
    (fun self =>
  let self :=
    mkBentoServiceEnv (_python_version self) (_pip_index_url self)
      (_pip_trusted_host self) (_pip_extra_index_url self) (_conda_env self)
      (_pip_dependencies self) auto_pip_dependencies (_setup_sh self)
      (_docker_base_image self) in
  let self := set_setup_sh setup_sh self in
  Ok (mkBentoServiceEnv (_python_version self) (_pip_index_url self)
        (_pip_trusted_host self) (_pip_extra_index_url self) (_conda_env self)
        (_pip_dependencies self) (_auto_pip_dependencies self) (_setup_sh self)
        (match docker_base_image with
         | Some (String c img) => String c img
         | _ => default_docker_base_image
         end)))).

(** The [dependencies_map] of [save]: the requirements of
    [self._pip_dependencies], parsed, by name; when
    [auto_pip_dependencies] is on, updated with the requirements found
    for the service's module ([found] is [None] when the module has no
    [__file__]) and with bentoml at the deploy version. *)
Definition dependencies_map (found : option (list (string * option string) * list string))
    (self : BentoServiceEnv) : list (string * option string) :=
  let dependencies_map :=
    fold_left (fun acc dep =>
                 let (name, version) := parse_requirement_string dep in
                 dict_set name version acc)
      (_pip_dependencies self) [] in
  if _auto_pip_dependencies self then
    let dependencies_map :=
      match found with
      | Some (reqs, unknown_modules) => dict_update reqs dependencies_map
      | None => dependencies_map
      end in
    dict_set "bentoml" (Some get_bentoml_deploy_version) dependencies_map
  else dependencies_map.

(** [BentoServiceEnv.save]: the environment afterwards and the files
    written. *)
Definition save (found : option (list (string * option string) * list string))
    (self : BentoServiceEnv) : BentoServiceEnv * saved_files :=
  let header :=
    (option_line "--index-url=" (_pip_index_url self)
     ++ option_line "--trusted-host=" (_pip_trusted_host self)
     ++ option_line "--extra-index-url=" (_pip_extra_index_url self))%string in
  let pip_dependencies :=
    map (fun kv => requirement_line (fst kv) (snd kv)) (dependencies_map found self) in
  let self' := set_pip_dependencies pip_dependencies self in
  (self',
   mkSavedFiles (_conda_env self) (_python_version self)
     (header ++ join_newline pip_dependencies)%string
     (if truthy (_setup_sh self) then _setup_sh self else None)).

(** *** Successions of calls on a service environment *)

Inductive env_call : Type :=
| AddPythonPackages (pip_dependencies : list string)
| AddPackagesFromRequirementsTxtFile (requirements_txt_path : string)
| AddCondaChannels (channels : list string)
| AddCondaDependencies (conda_dependencies' : list string)
| SetSetupSh (setup_sh_path_or_content : option string)
| Save (found : option (list (string * option string) * list string)).

(** The environment after a call; a call that raises has assigned
    nothing. *)
Definition apply_call (c : env_call) (self : BentoServiceEnv) : BentoServiceEnv :=
  match c with
  | AddPythonPackages l => add_python_packages l self
  | AddPackagesFromRequirementsTxtFile path =>
      match add_packages_from_requirements_txt_file path self with
      | Ok self' => self'
      | Raise _ => self
      end
  | AddCondaChannels l => add_conda_channels l self
  | AddCondaDependencies l => service_add_conda_dependencies l self
  | SetSetupSh s => set_setup_sh s self
  | Save found => fst (save found self)
  end.

Definition apply_calls (cs : list env_call) (self : BentoServiceEnv) : BentoServiceEnv :=
  fold_left (fun s c => apply_call c s) cs self.

End ServiceEnv.

(** The number of newline characters of a text. *)
Fixpoint count_newlines (s : string) : nat :=
  match s with
  | EmptyString => 0
  | String c s' => (if Ascii.eqb c newline then 1 else 0) + count_newlines s'
  end.

(** [newline in s] *)
Fixpoint has_newline (s : string) : bool :=
  match s with
  | EmptyString => false
  | String c s' => Ascii.eqb c newline || has_newline s'
  end.

(** ** A concrete world for the service environment *)

(** A parser of requirement strings for the examples: the name before
    and the version after the first [==]. *)
Fixpoint partition_requirement (rs : string) : string * option string :=
  match rs with
  | EmptyString => (EmptyString, None)
  | String c rs' =>
      match c, rs' with
      | "="%char, String "="%char version => (EmptyString, Some version)
      | _, _ => let (name, version) := partition_requirement rs' in
                (String c name, version)
      end
  end.

(** Two files: a requirements file that ends in a newline, and a setup
    script; and one directory. *)
Definition example_files (path : string) : option string :=
  if String.eqb path "requirements.txt"
  then Some ("numpy==1.19" ++ String newline ("scipy" ++ String newline ""))%string
  else if String.eqb path "setup.sh" then Some "echo ready"
  else None.

Definition example_directories (path : string) : bool := String.eqb path "bundle".

Definition example_yaml_load (content : string) : CondaEnv := DEFAULT_CONDA_ENV_BASE.

Definition example_init :=
  BentoServiceEnv_init example_files example_directories example_yaml_load
    (fun b => Ok b) (fun t => t)
    "3.7.9" "0.13.1" "bentoml/model-server:0.13.1".

(** The environment that the constructor returns for two given
    requirements, the requirements file and the setup script. *)
Definition example_env : BentoServiceEnv :=
  mkBentoServiceEnv "3.7.9" None None None DEFAULT_CONDA_ENV_BASE
    ["numpy==1.19"; "scipy"; ""; "bentoml==0.1"; "pandas"; "bentoml==0.13.1"]
    false (Some "echo ready") "bentoml/model-server:0.13.1".

(** The same with [auto_pip_dependencies]. *)
Definition example_auto_env : BentoServiceEnv :=
  mkBentoServiceEnv "3.7.9" None None None DEFAULT_CONDA_ENV_BASE
    ["numpy==1.19"; "scipy"; ""; "bentoml==0.1"; "pandas"; "bentoml==0.13.1"]
    true (Some "echo ready") "bentoml/model-server:0.13.1".

(** ** Concrete containers and units *)

(** Modelled from the spec: the container for values without a
    structural axis.  [singles_to_batch] is the wrapping collection of
    the items; [batch_to_singles] is its inverse and hands the batch on
    as the ordered sequence of its items, leaving a generator to be
    materialized by its caller. *)
Definition default_singles_to_batch (singles : list value) (ax : axis) : result value :=
  Ok (VList singles).

Definition default_batch_to_singles (batch : value) (ax : axis) : result value :=
  Ok batch.

(** Modelled from the spec: the same container when it materializes a
    generator itself. *)
Definition eager_batch_to_singles (batch : value) (ax : axis) : result value :=
  match batch with
  | VGen pending => Ok (VList pending)
  | _ => Ok batch
  end.

Definition square (v : value) : value :=
  match v with
  | VInt n => VInt (n * n)
  | _ => v
  end.

(** The batch a unit receives as its first positional argument. *)
Definition first_batch (p : Params) : list value :=
  match args p with
  | VList items :: _ => items
  | _ => []
  end.

Definition axis0 : BatchOptions := mkBatchOptions (Some 0%Z) (Some 0%Z).

(** Units whose state counts the completed setups. *)
Definition counting_setup (u : nat) : nat * result unit := (S u, Ok tt).

Definition failing_setup (u : nat) : nat * result unit :=
  (u, Raise (UserError "OSError" "model file missing")).

Definition no_run (p : Params) (u : nat) : nat * result value :=
  (u, Raise (UserError "NotImplementedError" "")).

(** A batch-capable unit that squares every item of its batch. *)
Definition square_runner : wrapped_runner nat :=
  mkRunner true false counting_setup
    (fun p u => (u, Ok (VList (map square (first_batch p))))) no_run axis0.

(** The same unit, answering with a generator. *)
Definition lazy_square_runner : wrapped_runner nat :=
  mkRunner true false counting_setup
    (fun p u => (u, Ok (VGen (map square (first_batch p))))) no_run axis0.

(** A batch-capable unit that answers every item with two values. *)
Definition twofold_runner : wrapped_runner nat :=
  mkRunner true false counting_setup
    (fun p u => (u, Ok (VList (flat_map (fun v => [square v; v]) (first_batch p)))))
    no_run axis0.

(** A batch-capable unit that answers with no value at all. *)
Definition silent_runner : wrapped_runner nat :=
  mkRunner true false counting_setup (fun p u => (u, Ok (VList []))) no_run axis0.

(** A scalar-only unit that squares its first argument. *)
Definition simple_square_runner : wrapped_runner nat :=
  mkRunner false true counting_setup no_run
    (fun p u => (u, Ok (square (hd VNone (args p))))) axis0.

(** A scalar-only unit whose setup raises. *)
Definition broken_simple_runner : wrapped_runner nat :=
  mkRunner false true failing_setup no_run
    (fun p u => (u, Ok (square (hd VNone (args p))))) axis0.

(** A batch-capable unit whose setup raises. *)
Definition broken_runner : wrapped_runner nat :=
  mkRunner true false failing_setup
    (fun p u => (u, Ok (VList (map square (first_batch p))))) no_run axis0.

(** A unit that is neither a [Runner] nor a [SimpleRunner]. *)
Definition bare_runner : wrapped_runner nat :=
  mkRunner false false counting_setup no_run no_run axis0.

(** Modelled from the spec: the constructor of [RunnerImpl] is not part
    of the sources at hand; an adapter starts in [INIT]. *)
Definition new_LocalRunner (r : wrapped_runner nat) : LocalRunner nat :=
  mkLocalRunner INIT r 0 [].

(** A container that insists on axis 0, for units configured
    otherwise. *)
Definition axis0_singles_to_batch (singles : list value) (ax : axis) : result value :=
  match ax with
  | Some 0%Z => Ok (VList singles)
  | _ => Raise (UserError "AssertionError" "batch_axis must be 0")
  end.

(** The squaring unit, configured with input axis 1. *)
Definition axis1_square_runner : wrapped_runner nat :=
  mkRunner true false counting_setup
    (fun p u => (u, Ok (VList (map square (first_batch p))))) no_run
    (mkBatchOptions (Some 1%Z) (Some 0%Z)).

(** A batch-capable unit whose batch execution raises. *)
Definition unimplemented_runner : wrapped_runner nat :=
  mkRunner true false counting_setup no_run no_run axis0.

(** The squaring unit, answering with an iterator that is no
    generator. *)
Definition iterator_square_runner : wrapped_runner nat :=
  mkRunner true false counting_setup
    (fun p u => (u, Ok (VIter (map square (first_batch p))))) no_run axis0.

(** A scalar-only unit whose execution raises [StopIteration]. *)
Definition exhausted_runner : wrapped_runner nat :=
  mkRunner false true counting_setup no_run (fun p u => (u, Raise StopIteration)) axis0.

(** A unit that passes both [isinstance] tests. *)
Definition hybrid_runner : wrapped_runner nat :=
  mkRunner true true counting_setup
    (fun p u => (u, Ok (VList (map square (first_batch p)))))
    (fun p u => (u, Ok (square (hd VNone (args p))))) axis0.


(** * Properties *)

(** ** [CondaEnv.add_channels] *)

Lemma contains_In (l : list string) (x : string) :
  contains l x = true <-> In x l.
Proof.
  unfold contains. rewrite existsb_exists. split.
  - intros [y [Hy Heq]]. apply String.eqb_eq in Heq. now subst.
  - intros Hin. exists x. split; [assumption | apply String.eqb_refl].
Qed.

Lemma forallb_contains_app (l extra rest : list string) :
  incl rest extra -> forallb (contains (l ++ extra)) rest = true.
Proof.
  intros Hincl. apply forallb_forall. intros c Hc.
  apply contains_In, in_or_app. right. now apply Hincl.
Qed.

(** The loop on the names still to visit: nothing happens while the
    names are found; the first missing one appends [channels], and
    from then on every name is found. *)
Lemma add_channels_loop (channels rest : list string) :
  incl rest channels ->
  forall self,
    fold_left (add_channels_step channels) rest self =
    if forallb (contains (conda_channels self)) rest then self
    else mkCondaEnv (conda_name self) (conda_channels self ++ channels)
           (conda_dependencies self).
Proof.
  induction rest as [|c rest IH]; intros Hincl self; simpl.
  - reflexivity.
  - assert (Hrest : incl rest channels)
      by (intros x Hx; apply Hincl; now right).
    rewrite (IH Hrest). unfold add_channels_step.
    destruct (contains (conda_channels self) c); simpl.
    + reflexivity.
    + now rewrite (forallb_contains_app _ Hrest).
Qed.

(** C10, as the code has it: when every name of [channels] is already
    in the environment the channel list is unchanged; otherwise the
    whole of [channels] is appended exactly once, however many of its
    names were missing, so that a name of [channels] that was already
    present then occurs more often than before.  Name and dependencies
    are untouched. *)
Theorem add_channels_appends_once (channels : list string) (self : CondaEnv) :
  conda_channels (add_channels channels self) =
    (if forallb (contains (conda_channels self)) channels
     then conda_channels self
     else conda_channels self ++ channels)
  /\ conda_name (add_channels channels self) = conda_name self
  /\ conda_dependencies (add_channels channels self) = conda_dependencies self
  /\ (forall c,
        count_occ string_dec (conda_channels (add_channels channels self)) c =
        count_occ string_dec (conda_channels self) c
        + (if forallb (contains (conda_channels self)) channels then 0
           else count_occ string_dec channels c)).
Proof.
  unfold add_channels. rewrite (add_channels_loop (incl_refl channels)).
  destruct (forallb (contains (conda_channels self)) channels); simpl;
    repeat split; try reflexivity; intros c.
  - lia.
  - apply count_occ_app.
Qed.

(** C10, as it is worded, fails: two new names make the described list
    carry the argument twice, while the code appends it once. *)
Lemma add_channels_not_once_per_missing :
  conda_channels (add_channels ["bioconda"; "pytorch"] DEFAULT_CONDA_ENV_BASE)
    = ["conda-forge"; "defaults"; "bioconda"; "pytorch"]
  /\ channels_as_described ["bioconda"; "pytorch"] DEFAULT_CONDA_ENV_BASE
    = ["conda-forge"; "defaults"; "bioconda"; "pytorch"; "bioconda"; "pytorch"]
  /\ conda_channels (add_channels ["bioconda"; "pytorch"] DEFAULT_CONDA_ENV_BASE)
    <> channels_as_described ["bioconda"; "pytorch"] DEFAULT_CONDA_ENV_BASE.
Proof.
  repeat split; try reflexivity. vm_compute. discriminate.
Qed.

(** A call that mixes one new name with the two present ones repeats
    the present ones. *)
Example add_channels_mixed :
  conda_channels (add_channels ["defaults"; "bioconda"; "conda-forge"]
                    DEFAULT_CONDA_ENV_BASE)
  = ["conda-forge"; "defaults"; "defaults"; "bioconda"; "conda-forge"].
Proof. reflexivity. Qed.

(** ** [LocalRunner] *)

Section LocalRunnerProperties.

Variable U : Type.
Variable singles_to_batch : list value -> axis -> result value.
Variable batch_to_singles : value -> axis -> result value.

Implicit Types (self : LocalRunner U) (p : Params) (e : exn).

Local Abbreviation run := (run singles_to_batch batch_to_singles).
Local Abbreviation perform := (perform singles_to_batch batch_to_singles).
Local Abbreviation perform_all := (perform_all singles_to_batch batch_to_singles).
Local Abbreviation execution_effect := (execution_effect singles_to_batch).
Local Abbreviation executions_only := (executions_only singles_to_batch).

Ltac unfold_monad :=
  unfold bind, ret, raise, lift, set_state, call_setup, call_run_batch, call_run.

(** *** The lifecycle *)

Lemma RunnerState_eqb_eq (a b : RunnerState) : RunnerState_eqb a b = true <-> a = b.
Proof. destruct a, b; simpl; split; congruence. Qed.

Lemma RunnerState_eqb_neq (a b : RunnerState) : RunnerState_eqb a b = false <-> a <> b.
Proof. destruct a, b; simpl; split; congruence. Qed.

(** [setup] on an adapter in [INIT]: both outcomes of the unit's
    routine. *)
Lemma setup_from_INIT self :
  _state self = INIT ->
  setup self =
    match _setup (_runner self) (unit_state self) with
    | (u, Ok _) =>
        (mkLocalRunner SET (_runner self) u
           (trace self ++ [EvState SETTING; EvSetup; EvState SET]), Ok tt)
    | (u, Raise e) =>
        (mkLocalRunner SETTING (_runner self) u
           (trace self ++ [EvState SETTING; EvSetup]), Raise e)
    end.
Proof.
  intros H. unfold setup. rewrite H. simpl. unfold_monad. simpl.
  destruct (_setup (_runner self) (unit_state self)) as [u [[]|e]]; simpl;
    rewrite <- !app_assoc; reflexivity.
Qed.

Lemma setup_past_INIT self : _state self <> INIT -> setup self = (self, Ok tt).
Proof.
  intros H. unfold setup. apply RunnerState_eqb_neq in H. now rewrite H.
Qed.

Lemma setup_keeps_runner self : _runner (fst (setup self)) = _runner self.
Proof.
  destruct (RunnerState_eqb (_state self) INIT) eqn:E.
  - apply RunnerState_eqb_eq in E. rewrite (setup_from_INIT _ E).
    destruct (_setup (_runner self) (unit_state self)) as [u [[]|e]]; reflexivity.
  - apply RunnerState_eqb_neq in E. now rewrite (setup_past_INIT _ E).
Qed.

Lemma after_setup_keeps_runner self : _runner (after_setup self) = _runner self.
Proof.
  unfold after_setup. destruct (RunnerState_eqb (_state self) INIT);
    [apply setup_keeps_runner | reflexivity].
Qed.

(** The opening [if self._state is RunnerState.INIT: self.setup()] of
    [run] and [run_batch]. *)
Lemma opening_fst self :
  fst ((if RunnerState_eqb (_state self) INIT then setup else ret tt) self)
  = after_setup self.
Proof.
  unfold after_setup. now destruct (RunnerState_eqb (_state self) INIT).
Qed.

Lemma opening_succeeds self :
  setup_succeeds self ->
  (if RunnerState_eqb (_state self) INIT then setup else ret tt) self
  = (after_setup self, Ok tt).
Proof.
  intros Hok. unfold after_setup.
  destruct (RunnerState_eqb (_state self) INIT) eqn:E; [|reflexivity].
  apply RunnerState_eqb_eq in E. specialize (Hok E).
  rewrite (setup_from_INIT _ E).
  destruct (_setup (_runner self) (unit_state self)) as [u [[]|e]];
    simpl in *; [reflexivity | discriminate].
Qed.

Lemma opening_raises self e :
  _state self = INIT ->
  snd (_setup (_runner self) (unit_state self)) = Raise e ->
  (if RunnerState_eqb (_state self) INIT then setup else ret tt) self
  = (mkLocalRunner SETTING (_runner self)
       (fst (_setup (_runner self) (unit_state self)))
       (trace self ++ [EvState SETTING; EvSetup]), Raise e).
Proof.
  intros E Hr. rewrite E. simpl. rewrite (setup_from_INIT _ E).
  destruct (_setup (_runner self) (unit_state self)) as [u [[]|e']];
    simpl in *; [discriminate | congruence].
Qed.

Lemma after_setup_past_INIT self : _state self <> INIT -> after_setup self = self.
Proof.
  intros H. unfold after_setup. apply RunnerState_eqb_neq in H. now rewrite H.
Qed.

Lemma after_setup_from_INIT self :
  _state self = INIT ->
  snd (_setup (_runner self) (unit_state self)) = Ok tt ->
  after_setup self =
    mkLocalRunner SET (_runner self) (fst (_setup (_runner self) (unit_state self)))
      (trace self ++ [EvState SETTING; EvSetup; EvState SET]).
Proof.
  intros E Hr. unfold after_setup. rewrite E. simpl. rewrite (setup_from_INIT _ E).
  destruct (_setup (_runner self) (unit_state self)) as [u [[]|e']];
    simpl in *; [reflexivity | discriminate].
Qed.

(** *** Traces *)

Lemma setup_calls_app (t1 t2 : list event) :
  setup_calls (t1 ++ t2) = setup_calls t1 + setup_calls t2.
Proof. unfold setup_calls. now rewrite filter_app, length_app. Qed.

Lemma execution_calls_app (t1 t2 : list event) :
  execution_calls (t1 ++ t2) = execution_calls t1 + execution_calls t2.
Proof. unfold execution_calls. now rewrite filter_app, length_app. Qed.

Lemma state_writes_app (t1 t2 : list event) :
  state_writes (t1 ++ t2) = state_writes t1 ++ state_writes t2.
Proof.
  induction t1 as [|[s| | |] t1 IH]; simpl; try assumption.
  - reflexivity.
  - now rewrite IH.
Qed.

Ltac break_match :=
  repeat match goal with
         | |- context [match ?x with _ => _ end] =>
             lazymatch x with
             | context [match _ with _ => _ end] => fail
             | _ => destruct x eqn:?; simpl
             end
         end.

(** Past [INIT] a call touches neither [self._state] nor the unit's
    setup routine; it adds at most one call of an execution routine. *)
Lemma run_past_INIT self p :
  _state self <> INIT ->
  exists tr,
    trace (fst (run p self)) = trace self ++ tr
    /\ setup_calls tr = 0 /\ state_writes tr = [] /\ execution_calls tr <= 1
    /\ _state (fst (run p self)) = _state self
    /\ _runner (fst (run p self)) = _runner self.
Proof.
  intros H. apply RunnerState_eqb_neq in H. unfold run. rewrite H.
  unfold_monad. simpl. break_match;
    solve [ exists []; rewrite app_nil_r; repeat split; auto
          | eexists [_]; repeat split; auto ].
Qed.

Lemma run_batch_past_INIT self p :
  _state self <> INIT ->
  exists tr,
    trace (fst (run_batch p self)) = trace self ++ tr
    /\ setup_calls tr = 0 /\ state_writes tr = [] /\ execution_calls tr <= 1
    /\ _state (fst (run_batch p self)) = _state self
    /\ _runner (fst (run_batch p self)) = _runner self.
Proof.
  intros H. apply RunnerState_eqb_neq in H. unfold run_batch. rewrite H.
  unfold_monad. simpl. break_match;
    solve [ exists []; rewrite app_nil_r; repeat split; auto
          | eexists [_]; repeat split; auto ].
Qed.

Lemma perform_past_INIT self (c : call) :
  _state self <> INIT ->
  exists tr,
    trace (perform c self) = trace self ++ tr
    /\ setup_calls tr = 0 /\ state_writes tr = []
    /\ _state (perform c self) = _state self
    /\ _runner (perform c self) = _runner self.
Proof.
  intros H. destruct c as [|p|p]; simpl.
  - rewrite (setup_past_INIT _ H). exists []. rewrite app_nil_r. auto.
  - destruct (@run_past_INIT self p H) as [tr (? & ? & ? & ? & ? & ?)]. exists tr. auto.
  - destruct (@run_batch_past_INIT self p H) as [tr (? & ? & ? & ? & ? & ?)]. exists tr. auto.
Qed.

Lemma perform_all_past_INIT (cs : list call) :
  forall self,
    _state self <> INIT ->
    exists tr,
      trace (perform_all cs self) = trace self ++ tr
      /\ setup_calls tr = 0 /\ state_writes tr = []
      /\ _state (perform_all cs self) = _state self
      /\ _runner (perform_all cs self) = _runner self.
Proof.
  induction cs as [|c cs IH]; intros self H; simpl.
  - exists []. rewrite app_nil_r. auto.
  - destruct (@perform_past_INIT self c H) as [t1 (Ht1 & Hs1 & Hw1 & Hst1 & Hr1)].
    assert (H' : _state (perform c self) <> INIT) by congruence.
    destruct (IH _ H') as [t2 (Ht2 & Hs2 & Hw2 & Hst2 & Hr2)].
    exists (t1 ++ t2). unfold perform_all in *. simpl.
    rewrite Ht2, Ht1, app_assoc, setup_calls_app, state_writes_app, Hs1, Hs2, Hw1, Hw2.
    repeat split; congruence.
Qed.

(** A call whose opening setup succeeds goes on as the same call on
    the adapter that the setup left. *)
Lemma run_after_setup self p :
  setup_succeeds self -> run p self = run p (after_setup self).
Proof.
  intros Hok. unfold run at 1. unfold bind at 1.
  rewrite (opening_succeeds Hok).
  destruct (RunnerState_eqb (_state self) INIT) eqn:E.
  - apply RunnerState_eqb_eq in E.
    rewrite (after_setup_from_INIT _ E (Hok E)). reflexivity.
  - apply RunnerState_eqb_neq in E. rewrite (after_setup_past_INIT _ E).
    unfold run, bind. apply RunnerState_eqb_neq in E. rewrite E. reflexivity.
Qed.

Lemma run_batch_after_setup self p :
  setup_succeeds self -> run_batch p self = run_batch p (after_setup self).
Proof.
  intros Hok. unfold run_batch at 1. unfold bind at 1.
  rewrite (opening_succeeds Hok).
  destruct (RunnerState_eqb (_state self) INIT) eqn:E.
  - apply RunnerState_eqb_eq in E.
    rewrite (after_setup_from_INIT _ E (Hok E)). reflexivity.
  - apply RunnerState_eqb_neq in E. rewrite (after_setup_past_INIT _ E).
    unfold run_batch, bind. apply RunnerState_eqb_neq in E. rewrite E. reflexivity.
Qed.

Lemma perform_after_setup self (c : call) :
  setup_succeeds self -> perform c self = perform c (after_setup self).
Proof.
  intros Hok. destruct c as [|p|p]; simpl.
  - destruct (RunnerState_eqb (_state self) INIT) eqn:E.
    + apply RunnerState_eqb_eq in E.
      rewrite (after_setup_from_INIT _ E (Hok E)).
      rewrite (setup_from_INIT _ E). specialize (Hok E).
      destruct (_setup (_runner self) (unit_state self)) as [u [[]|e]];
        simpl in *; [reflexivity | discriminate].
    + apply RunnerState_eqb_neq in E. now rewrite (after_setup_past_INIT _ E).
  - now rewrite (run_after_setup p Hok).
  - now rewrite (run_batch_after_setup p Hok).
Qed.

(** A call on an adapter in [INIT] whose unit fails to set up stops
    right there. *)
Lemma perform_setup_raises self (c : call) e :
  _state self = INIT ->
  snd (_setup (_runner self) (unit_state self)) = Raise e ->
  perform c self =
    mkLocalRunner SETTING (_runner self)
      (fst (_setup (_runner self) (unit_state self)))
      (trace self ++ [EvState SETTING; EvSetup]).
Proof.
  intros E Hr. destruct c as [|p|p]; simpl.
  - rewrite (setup_from_INIT _ E).
    destruct (_setup (_runner self) (unit_state self)) as [u [[]|e']];
      simpl in *; [discriminate | reflexivity].
  - unfold run, bind. now rewrite (opening_raises _ E Hr).
  - unfold run_batch, bind. now rewrite (opening_raises _ E Hr).
Qed.

Lemma last_cons (A : Type) (l : list A) :
  forall b a, last (b :: l) a = last l b.
Proof.
  induction l as [|c l IH]; intros b a; [reflexivity|].
  change (last (b :: c :: l) a) with (last (c :: l) a).
  now rewrite !IH.
Qed.

Lemma last_app_cons (A : Type) (l l2 : list A) (b : A) :
  forall d, last (l ++ b :: l2) d = last l2 b.
Proof.
  induction l as [|c l IH]; intros d; simpl app.
  - apply last_cons.
  - now rewrite last_cons, IH.
Qed.

Lemma forward_app (a : RunnerState) (l1 l2 : list RunnerState) :
  forward (a :: l1) -> forward (last l1 a :: l2) -> forward (a :: l1 ++ l2).
Proof.
  revert a. induction l1 as [|b l1 IH]; intros a H1 H2.
  - exact H2.
  - destruct H1 as [Hab H1]. split; [exact Hab|].
    apply IH; [exact H1|]. now rewrite <- (last_cons l1 b a).
Qed.

(** Whatever the unit does, a call only moves [self._state] forward. *)
Lemma perform_never_regresses self (c : call) :
  exists tr,
    trace (perform c self) = trace self ++ tr
    /\ forward (_state self :: state_writes tr)
    /\ _state (perform c self) = last (state_writes tr) (_state self).
Proof.
  destruct (RunnerState_eqb (_state self) INIT) eqn:E.
  - apply RunnerState_eqb_eq in E.
    destruct (snd (_setup (_runner self) (unit_state self))) as [[]|e] eqn:Hr.
    + assert (Hok : setup_succeeds self) by (intros _; exact Hr).
      rewrite (perform_after_setup c Hok), (after_setup_from_INIT _ E Hr).
      match goal with
      | |- context [perform c ?s] =>
          destruct (@perform_past_INIT s c) as [tr (Ht & _ & Hw & Hst & _)];
          [discriminate | rewrite Ht, Hst]
      end.
      simpl. exists ([EvState SETTING; EvSetup; EvState SET] ++ tr).
      rewrite app_assoc, state_writes_app, Hw, E. simpl.
      repeat split; auto.
    + rewrite (@perform_setup_raises self c e E Hr). simpl.
      exists [EvState SETTING; EvSetup]. rewrite E. simpl. auto.
  - apply RunnerState_eqb_neq in E.
    destruct (@perform_past_INIT self c E) as [tr (Ht & _ & Hw & Hst & _)].
    exists tr. rewrite Hw. simpl. auto.
Qed.

(** X2: whatever the unit does and wherever the adapter starts, a
    succession of calls assigns to [self._state] only values further
    on the road INIT, SETTING, SET, each one past the one before, and
    the state at the end is the last one assigned. *)
Lemma calls_never_regress (cs : list call) :
  forall self,
    exists tr,
      trace (perform_all cs self) = trace self ++ tr
      /\ forward (_state self :: state_writes tr)
      /\ _state (perform_all cs self) = last (state_writes tr) (_state self).
Proof.
  induction cs as [|c cs IH]; intros self.
  - exists []. simpl. rewrite app_nil_r. auto.
  - destruct (perform_never_regresses self c) as [t1 (Ht1 & Hf1 & Hs1)].
    destruct (IH (perform c self)) as [t2 (Ht2 & Hf2 & Hs2)].
    exists (t1 ++ t2). unfold perform_all in *. simpl.
    rewrite Ht2, Ht1, app_assoc, state_writes_app. repeat split.
    + apply forward_app; [exact Hf1 | now rewrite <- Hs1].
    + rewrite Hs2, Hs1. destruct (state_writes t2) as [|b l2] eqn:E2.
      * now rewrite app_nil_r.
      * now rewrite last_app_cons, last_cons.
Qed.

(** C4: when the unit's setup routine raises, the exception reaches
    the caller of [setup] (and of a [run] or [run_batch] that triggered
    it), [SET] is never assigned, and the adapter is left in
    [SETTING]. *)
Theorem setup_failure_propagates self e :
  _state self = INIT ->
  snd (_setup (_runner self) (unit_state self)) = Raise e ->
  snd (setup self) = Raise e
  /\ _state (fst (setup self)) = SETTING
  /\ _state (fst (setup self)) <> SET
  /\ trace (fst (setup self)) = trace self ++ [EvState SETTING; EvSetup]
  /\ (forall p,
        snd (run p self) = Raise e /\ _state (fst (run p self)) = SETTING
        /\ snd (run_batch p self) = Raise e
        /\ _state (fst (run_batch p self)) = SETTING).
Proof.
  intros E Hr. rewrite (setup_from_INIT _ E).
  split; [|split; [|split; [|split]]].
  - destruct (_setup (_runner self) (unit_state self)) as [u [[]|e']];
      simpl in *; [discriminate | exact Hr].
  - destruct (_setup (_runner self) (unit_state self)) as [u [[]|e']];
      simpl in *; [discriminate | reflexivity].
  - destruct (_setup (_runner self) (unit_state self)) as [u [[]|e']];
      simpl in *; discriminate.
  - destruct (_setup (_runner self) (unit_state self)) as [u [[]|e']];
      simpl in *; [discriminate | reflexivity].
  - intros p. unfold run, run_batch, bind.
    rewrite (opening_raises _ E Hr). simpl. auto.
Qed.

(** *** The dispatch *)

Lemma after_setup_not_INIT self :
  setup_succeeds self -> _state (after_setup self) <> INIT.
Proof.
  intros Hok. destruct (RunnerState_eqb (_state self) INIT) eqn:E.
  - apply RunnerState_eqb_eq in E.
    rewrite (after_setup_from_INIT _ E (Hok E)). discriminate.
  - apply RunnerState_eqb_neq in E. now rewrite (after_setup_past_INIT _ E).
Qed.

(** The opening setup adds no call of an execution routine. *)
Lemma opening_executes_nothing self :
  execution_calls
    (trace (fst ((if RunnerState_eqb (_state self) INIT then setup else ret tt) self)))
  = execution_calls (trace self).
Proof.
  destruct (RunnerState_eqb (_state self) INIT) eqn:E; [|reflexivity].
  apply RunnerState_eqb_eq in E. rewrite (setup_from_INIT _ E).
  destruct (_setup (_runner self) (unit_state self)) as [u [[]|e]]; simpl;
    rewrite execution_calls_app; unfold execution_calls; simpl; lia.
Qed.

Lemma run_batch_dispatch self p :
  _state self <> INIT ->
  run_batch p self =
    if isinstance_Runner (_runner self) then call_run_batch p self
    else if isinstance_SimpleRunner (_runner self)
         then (self, Raise UnsupportedOperation)
         else (self, Ok VNone).
Proof.
  intros H. apply RunnerState_eqb_neq in H. unfold run_batch, bind. now rewrite H.
Qed.

Lemma run_dispatch_scalar self p :
  _state self <> INIT ->
  isinstance_Runner (_runner self) = false ->
  run p self =
    if isinstance_SimpleRunner (_runner self) then call_run p self
    else (self, Ok VNone).
Proof.
  intros H HR. apply RunnerState_eqb_neq in H. unfold run, bind.
  rewrite H. unfold ret at 1. now rewrite HR.
Qed.

(** [run] on a batch-capable unit, when wrapping, the unit's batch
    execution and the conversion back all return. *)
Lemma run_dispatch_batch self p p' u batch singles :
  _state self <> INIT ->
  isinstance_Runner (_runner self) = true ->
  Params_map (fun i => singles_to_batch [i]
                         (input_batch_axis (batch_options (_runner self)))) p
    = Ok p' ->
  _run_batch (_runner self) p' (unit_state self) = (u, Ok batch) ->
  batch_to_singles batch (output_batch_axis (batch_options (_runner self)))
    = Ok singles ->
  run p self =
    (mkLocalRunner (_state self) (_runner self) u (trace self ++ [EvRunBatch p']),
     result_bind (if isinstance_GeneratorType singles then py_list singles
                  else Ok singles)
       (fun s => getitem s 0)).
Proof.
  intros H HR Hp Hb Hs. apply RunnerState_eqb_neq in H. unfold run, bind.
  rewrite H. unfold ret at 1. rewrite HR. unfold lift at 1. rewrite Hp.
  unfold call_run_batch. rewrite Hb. simpl _runner. unfold lift at 1. rewrite Hs.
  destruct (isinstance_GeneratorType singles); unfold lift, ret;
    [destruct (py_list singles)|]; reflexivity.
Qed.





(** C3: on a scalar-only unit [run_batch] never returns a value and
    never enters an execution routine of the unit, whatever the
    arguments; what it raises is the "shall not call run_batch on a
    simple runner" error, unless the setup it had to trigger raised
    first. *)
Theorem run_batch_on_simple_runner self p :
  isinstance_Runner (_runner self) = false ->
  isinstance_SimpleRunner (_runner self) = true ->
  (exists e, snd (run_batch p self) = Raise e)
  /\ execution_calls (trace (fst (run_batch p self))) = execution_calls (trace self)
  /\ (setup_succeeds self -> snd (run_batch p self) = Raise UnsupportedOperation).
Proof.
  intros HR HS. unfold run_batch, bind.
  pose proof (opening_executes_nothing self) as Hex.
  pose proof (opening_fst self) as Hfst.
  pose proof (@opening_succeeds self) as Hok.
  destruct ((if RunnerState_eqb (_state self) INIT then setup else ret tt) self)
    as [s1 [[]|e]]; simpl in Hex, Hfst; subst s1.
  - rewrite after_setup_keeps_runner, HR, HS. unfold raise. simpl.
    repeat split; eauto.
  - simpl. repeat split; eauto.
    intros H. specialize (Hok H). discriminate.
Qed.

(** C8: on a unit that is neither a [Runner] nor a [SimpleRunner],
    [run] and [run_batch] return [None] once the setup they may have
    to trigger has gone through; the adapter is then the one that
    setup left, in [SET] when it started in [INIT], and no execution
    routine was entered. *)
Theorem run_on_other_unit_returns_None self p :
  isinstance_Runner (_runner self) = false ->
  isinstance_SimpleRunner (_runner self) = false ->
  setup_succeeds self ->
  run p self = (after_setup self, Ok VNone)
  /\ run_batch p self = (after_setup self, Ok VNone)
  /\ (_state self = INIT ->
      _state (after_setup self) = SET
      /\ trace (after_setup self)
         = trace self ++ [EvState SETTING; EvSetup; EvState SET]).
Proof.
  intros HR HS Hok.
  pose proof (after_setup_not_INIT Hok) as Hne.
  rewrite (run_after_setup p Hok), (run_batch_after_setup p Hok).
  assert (HR' : isinstance_Runner (_runner (after_setup self)) = false)
    by now rewrite after_setup_keeps_runner.
  rewrite (@run_dispatch_scalar (after_setup self) p Hne HR').
  rewrite (@run_batch_dispatch (after_setup self) p Hne).
  rewrite after_setup_keeps_runner, HR, HS.
  split; [reflexivity|]. split; [reflexivity|]. intros E.
  now rewrite (after_setup_from_INIT _ E (Hok E)).
Qed.

(** C5, as the code has it: [run] materializes a generator object
    and nothing else.  When the unit's batch execution answers with a
    generator of one value, which the conversion hands on as it is or
    as a list, [run] returns that value: the generator itself cannot
    be indexed, and what [run] indexes is the list made of it.  When
    it answers with an iterator of one value that is no generator
    object, which the conversion hands on as it is, [run] indexes the
    iterator itself and raises [TypeError].  Either way the unit's
    batch execution is entered once. *)
Theorem run_materializes_generators_only self p p' (u : U) (y : value) :
  isinstance_Runner (_runner self) = true ->
  setup_succeeds self ->
  Params_map (fun i => singles_to_batch [i]
                         (input_batch_axis (batch_options (_runner self)))) p
    = Ok p' ->
  (_run_batch (_runner self) p' (unit_state (after_setup self)) = (u, Ok (VGen [y])) ->
   (batch_to_singles (VGen [y]) (output_batch_axis (batch_options (_runner self)))
      = Ok (VGen [y])
    \/ batch_to_singles (VGen [y]) (output_batch_axis (batch_options (_runner self)))
      = Ok (VList [y])) ->
   run p self
   = (mkLocalRunner (_state (after_setup self)) (_runner self) u
        (trace (after_setup self) ++ [EvRunBatch p']), Ok y)
   /\ getitem (VGen [y]) 0
      = Raise (TypeError "'generator' object is not subscriptable"))
  /\ (_run_batch (_runner self) p' (unit_state (after_setup self)) = (u, Ok (VIter [y])) ->
      batch_to_singles (VIter [y]) (output_batch_axis (batch_options (_runner self)))
        = Ok (VIter [y]) ->
      run p self
      = (mkLocalRunner (_state (after_setup self)) (_runner self) u
           (trace (after_setup self) ++ [EvRunBatch p']),
         Raise (TypeError "'list_iterator' object is not subscriptable"))).
Proof.
  intros HR Hok Hp.
  pose proof (after_setup_not_INIT Hok) as Hne.
  rewrite (run_after_setup p Hok).
  rewrite <- (after_setup_keeps_runner self) in HR, Hp |- *.
  split.
  - intros Hb Hs. split; [|reflexivity].
    destruct Hs as [Hs|Hs];
      rewrite (@run_dispatch_batch (after_setup self) p p' u _ _ Hne HR Hp Hb Hs);
      reflexivity.
  - intros Hb Hs.
    rewrite (@run_dispatch_batch (after_setup self) p p' u _ _ Hne HR Hp Hb Hs).
    reflexivity.
Qed.

(** C6, as the code has it: [run] does not compare the number of
    recovered single results with anything.  When the conversion
    recovers one or more, [run] returns the first and drops the others;
    when it recovers none, the indexing raises [IndexError]. *)
Theorem run_returns_first_single self p p' (u : U) (batch singles : value)
    (y : value) (rest : list value) :
  isinstance_Runner (_runner self) = true ->
  setup_succeeds self ->
  Params_map (fun i => singles_to_batch [i]
                         (input_batch_axis (batch_options (_runner self)))) p
    = Ok p' ->
  _run_batch (_runner self) p' (unit_state (after_setup self)) = (u, Ok batch) ->
  batch_to_singles batch (output_batch_axis (batch_options (_runner self)))
    = Ok singles ->
  (singles_of singles = Some (y :: rest) -> snd (run p self) = Ok y)
  /\ (singles_of singles = Some [] ->
      snd (run p self) = Raise (IndexError "list index out of range")).
Proof.
  intros HR Hok Hp Hb Hs.
  pose proof (after_setup_not_INIT Hok) as Hne.
  rewrite (run_after_setup p Hok).
  rewrite <- (after_setup_keeps_runner self) in HR, Hp, Hb, Hs.
  rewrite (@run_dispatch_batch (after_setup self) p p' u _ _ Hne HR Hp Hb Hs).
  split; intros H; destruct singles; simpl in H; inversion H; reflexivity.
Qed.

(** C7, as the code has it: the coroutines of [async_run] and
    [async_run_batch], driven to their end, are never suspended and
    leave the adapter as [run] and [run_batch] do.  They return the
    value and raise the exception of [run] and [run_batch], with one
    exception: where these raise [StopIteration], the coroutine raises
    [RuntimeError] in its place. *)
Theorem async_entry_points_follow_sync self p (fuel : nat) :
  (snd (run p self) <> Raise StopIteration ->
   drive (S fuel) (async_run singles_to_batch batch_to_singles p) self
   = Some (fst (run p self), snd (run p self), 0))
  /\ (snd (run_batch p self) <> Raise StopIteration ->
      drive (S fuel) (async_run_batch p) self
      = Some (fst (run_batch p self), snd (run_batch p self), 0))
  /\ (snd (run p self) = Raise StopIteration ->
      drive (S fuel) (async_run singles_to_batch batch_to_singles p) self
      = Some (fst (run p self),
              Raise (RuntimeError "coroutine raised StopIteration"), 0))
  /\ (snd (run_batch p self) = Raise StopIteration ->
      drive (S fuel) (async_run_batch p) self
      = Some (fst (run_batch p self),
              Raise (RuntimeError "coroutine raised StopIteration"), 0)).
Proof.
  unfold async_run, async_run_batch. simpl.
  destruct (run p self) as [s1 r1], (run_batch p self) as [s2 r2]. simpl.
  repeat split; intros H.
  - destruct r1 as [v|[]]; try reflexivity. contradiction.
  - destruct r2 as [v|[]]; try reflexivity. contradiction.
  - now subst r1.
  - now subst r2.
Qed.

(** *** The unit through a succession of calls *)

(** Past [INIT] a call changes the unit by the execution routine that
    its dispatch enters, and by nothing else. *)
Lemma perform_past_INIT_unit self (c : call) :
  _state self <> INIT ->
  unit_state (perform c self) = execution_effect (_runner self) c (unit_state self).
Proof.
  intros Hne. destruct c as [|p|p]; simpl.
  - now rewrite (setup_past_INIT _ Hne).
  - destruct (isinstance_Runner (_runner self)) eqn:HR.
    + apply RunnerState_eqb_neq in Hne. unfold run, bind. rewrite Hne.
      unfold ret at 1. rewrite HR. unfold lift at 1.
      destruct (Params_map _ p) as [p'|e]; [|reflexivity].
      unfold call_run_batch.
      destruct (_run_batch (_runner self) p' (unit_state self)) as [u [b|e]];
        [|reflexivity].
      simpl _runner. unfold lift at 1.
      destruct (batch_to_singles b _) as [s1|e1]; [|reflexivity].
      destruct (isinstance_GeneratorType s1); unfold lift, ret;
        [destruct (py_list s1)|]; reflexivity.
    + rewrite (@run_dispatch_scalar self p Hne HR).
      destruct (isinstance_SimpleRunner (_runner self)); [|reflexivity].
      unfold call_run. now destruct (_run (_runner self) p (unit_state self)).
  - rewrite (@run_batch_dispatch self p Hne).
    destruct (isinstance_Runner (_runner self)).
    + unfold call_run_batch.
      now destruct (_run_batch (_runner self) p (unit_state self)).
    + now destruct (isinstance_SimpleRunner (_runner self)).
Qed.

Lemma perform_all_past_INIT_unit (cs : list call) :
  forall self,
    _state self <> INIT ->
    unit_state (perform_all cs self)
    = executions_only (_runner self) cs (unit_state self).
Proof.
  induction cs as [|c cs IH]; intros self Hne; [reflexivity|].
  destruct (@perform_past_INIT self c Hne) as [tr (_ & _ & _ & Hst & Hrn)].
  assert (Hne' : _state (perform c self) <> INIT) by congruence.
  unfold perform_all, executions_only in *. simpl.
  now rewrite (IH _ Hne'), Hrn, (@perform_past_INIT_unit self c Hne).
Qed.

(** C2: on an adapter in [INIT] whose unit sets up without raising,
    any succession of one or more calls of [setup], [run] and
    [run_batch] runs the unit's setup routine exactly once: the unit
    ends in the state that one run of its setup routine, followed by
    the execution routines that the calls enter, leaves it in; the
    setup routine is entered once; the adapter ends in [SET]; and
    [self._state] is assigned first [SETTING] and then [SET] and
    nothing else, so that the state goes forward INIT, SETTING, SET
    and never back. *)
Theorem setup_exactly_once self (c : call) (cs : list call) :
  _state self = INIT ->
  snd (_setup (_runner self) (unit_state self)) = Ok tt ->
  _state (perform_all (c :: cs) self) = SET
  /\ unit_state (perform_all (c :: cs) self)
     = executions_only (_runner self) (c :: cs)
         (fst (_setup (_runner self) (unit_state self)))
  /\ exists tr,
       trace (perform_all (c :: cs) self) = trace self ++ tr
       /\ setup_calls tr = 1
       /\ state_writes tr = [SETTING; SET]
       /\ forward (_state self :: state_writes tr).
Proof.
  intros E Hr.
  assert (Hok : setup_succeeds self) by (intros _; exact Hr).
  assert (Hsame : perform_all (c :: cs) self = perform_all (c :: cs) (after_setup self)).
  { unfold perform_all. simpl fold_left. now rewrite (perform_after_setup c Hok). }
  rewrite Hsame, (after_setup_from_INIT _ E Hr).
  match goal with
  | |- context [perform_all (c :: cs) ?s] =>
      destruct (@perform_all_past_INIT (c :: cs) s) as [tr (Ht & Hs & Hw & Hst & _)];
      [discriminate |];
      rewrite Ht, Hst, (@perform_all_past_INIT_unit (c :: cs) s) by discriminate
  end.
  split; [reflexivity|]. split; [reflexivity|].
  exists ([EvState SETTING; EvSetup; EvState SET] ++ tr).
  simpl trace. rewrite app_assoc, setup_calls_app, state_writes_app, Hs, Hw, E.
  simpl. repeat split; auto.
Qed.

(** C9: once the unit's setup routine has raised (which left the
    adapter in [SETTING]), no later call enters it again: over any
    further calls the state stays [SETTING], [SET] is never assigned,
    and the unit is changed by execution routines only, starting from
    the state in which the failed setup left it.  On the adapter [w]
    so reached, [run] and [run_batch] go straight to their dispatch
    and call the execution routine of that unit: [run_batch] on a
    [Runner] is the unit's [_run_batch] on the same parameters, [run]
    on a [SimpleRunner] is the unit's [_run], and [run] on a [Runner]
    is the unit's [_run_batch] on the wrapped parameters followed by
    the conversion and the indexing. *)
Theorem failed_setup_never_retried self e (c : call) (cs : list call)
    (w : LocalRunner U) :
  _state self = INIT ->
  snd (_setup (_runner self) (unit_state self)) = Raise e ->
  w = perform_all (c :: cs) self ->
  _state w = SETTING
  /\ _runner w = _runner self
  /\ unit_state w
     = executions_only (_runner self) cs (fst (_setup (_runner self) (unit_state self)))
  /\ (exists tr,
        trace w = trace self ++ tr /\ setup_calls tr = 1 /\ state_writes tr = [SETTING])
  /\ (forall p,
        setup_calls (trace (fst (run p w))) = setup_calls (trace w)
        /\ setup_calls (trace (fst (run_batch p w))) = setup_calls (trace w)
        /\ _state (fst (run p w)) = SETTING
        /\ _state (fst (run_batch p w)) = SETTING)
  /\ (isinstance_Runner (_runner self) = true ->
      forall p,
        run_batch p w
        = (mkLocalRunner SETTING (_runner self)
             (fst (_run_batch (_runner self) p (unit_state w)))
             (trace w ++ [EvRunBatch p]),
           snd (_run_batch (_runner self) p (unit_state w))))
  /\ (isinstance_Runner (_runner self) = true ->
      forall p p',
        Params_map (fun i => singles_to_batch [i]
                               (input_batch_axis (batch_options (_runner self)))) p
          = Ok p' ->
        run p w
        = (mkLocalRunner SETTING (_runner self)
             (fst (_run_batch (_runner self) p' (unit_state w)))
             (trace w ++ [EvRunBatch p']),
           result_bind (snd (_run_batch (_runner self) p' (unit_state w)))
             (fun batch =>
                result_bind
                  (batch_to_singles batch
                     (output_batch_axis (batch_options (_runner self))))
                  (fun singles =>
                     result_bind
                       (if isinstance_GeneratorType singles then py_list singles
                        else Ok singles)
                       (fun s => getitem s 0)))))
  /\ (isinstance_Runner (_runner self) = false ->
      isinstance_SimpleRunner (_runner self) = true ->
      forall p,
        run p w
        = (mkLocalRunner SETTING (_runner self)
             (fst (_run (_runner self) p (unit_state w)))
             (trace w ++ [EvRun p]),
           snd (_run (_runner self) p (unit_state w)))).
Proof.
  intros E Hr Hw.
  assert (Hfirst : perform c self =
            mkLocalRunner SETTING (_runner self)
              (fst (_setup (_runner self) (unit_state self)))
              (trace self ++ [EvState SETTING; EvSetup]))
    by exact (@perform_setup_raises self c e E Hr).
  assert (Hw' : w = perform_all cs (perform c self)) by exact Hw.
  rewrite Hfirst in Hw'.
  match type of Hw' with
  | w = perform_all cs ?s =>
      destruct (@perform_all_past_INIT cs s) as [tr (Ht & Hs & Hwr & Hst & Hrn)];
      [discriminate |];
      pose proof (@perform_all_past_INIT_unit cs s) as Hu
  end.
  rewrite <- Hw' in Ht, Hst, Hrn, Hu. simpl in Ht, Hst, Hrn, Hu.
  specialize (Hu ltac:(discriminate)).
  assert (Hne : _state w <> INIT) by (rewrite Hst; discriminate).
  assert (Heqb : RunnerState_eqb (_state w) INIT = false)
    by now apply RunnerState_eqb_neq.
  split; [exact Hst|]. split; [exact Hrn|]. split; [exact Hu|]. split.
  { exists ([EvState SETTING; EvSetup] ++ tr). rewrite Ht, <- app_assoc.
    split; [reflexivity|].
    rewrite setup_calls_app, state_writes_app, Hs, Hwr. auto. }
  split.
  { intros p.
    destruct (@run_past_INIT w p Hne) as [t1 (Ht1 & Hs1 & _ & _ & Hst1 & _)].
    destruct (@run_batch_past_INIT w p Hne) as [t2 (Ht2 & Hs2 & _ & _ & Hst2 & _)].
    rewrite Ht1, Ht2, !setup_calls_app, Hs1, Hs2, Hst1, Hst2.
    repeat split; auto. }
  split.
  { intros HR p. rewrite (@run_batch_dispatch w p Hne), Hrn, HR.
    unfold call_run_batch. rewrite Hrn, Hst.
    now destruct (_run_batch (_runner self) p (unit_state w)). }
  split.
  { intros HR p p' Hp. unfold run, bind. rewrite Heqb. unfold ret at 1.
    rewrite Hrn, HR. unfold lift at 1. rewrite Hp.
    unfold call_run_batch. rewrite Hrn, Hst.
    destruct (_run_batch (_runner self) p' (unit_state w)) as [u [b|e']];
      [|reflexivity].
    simpl _runner. simpl fst. simpl snd. cbn [result_bind]. unfold lift at 1.
    destruct (batch_to_singles b _) as [s1|e1]; [|reflexivity].
    cbn [result_bind].
    destruct (isinstance_GeneratorType s1); unfold lift, ret;
      [destruct (py_list s1)|]; reflexivity. }
  intros HR HS p.
  assert (HR' : isinstance_Runner (_runner w) = false) by now rewrite Hrn.
  rewrite (@run_dispatch_scalar w p Hne HR'), Hrn, HS.
  unfold call_run. rewrite Hrn, Hst.
  now destruct (_run (_runner self) p (unit_state w)).
Qed.

(** *** Further properties of the adapter *)

(** X1: a second [setup] returns normally and changes nothing, whether
    the first one returned or raised. *)
Theorem setup_twice self :
  setup (fst (setup self)) = (fst (setup self), Ok tt).
Proof.
  destruct (RunnerState_eqb (_state self) INIT) eqn:E.
  - apply RunnerState_eqb_eq in E. rewrite (setup_from_INIT _ E).
    destruct (_setup (_runner self) (unit_state self)) as [u [[]|e]]; simpl;
      apply setup_past_INIT; discriminate.
  - apply RunnerState_eqb_neq in E. rewrite (setup_past_INIT _ E). simpl.
    now apply setup_past_INIT.
Qed.

(** X3: on a scalar-only unit [run] hands its parameters unchanged to
    the unit's [_run] and returns what that returns or raises, once
    the opening setup has gone through. *)
Theorem run_on_simple_runner_delegates self p :
  isinstance_Runner (_runner self) = false ->
  isinstance_SimpleRunner (_runner self) = true ->
  setup_succeeds self ->
  run p self = call_run p (after_setup self).
Proof.
  intros HR HS Hok.
  pose proof (after_setup_not_INIT Hok) as Hne.
  assert (HR' : isinstance_Runner (_runner (after_setup self)) = false)
    by now rewrite after_setup_keeps_runner.
  rewrite (run_after_setup p Hok).
  rewrite (@run_dispatch_scalar (after_setup self) p Hne HR').
  now rewrite after_setup_keeps_runner, HS.
Qed.

(** X4: on a batch-capable unit [run_batch] hands its parameters
    unchanged to the unit's [_run_batch], without wrapping or
    unwrapping, also when the unit is a [SimpleRunner] as well. *)
Theorem run_batch_delegates self p :
  isinstance_Runner (_runner self) = true ->
  setup_succeeds self ->
  run_batch p self = call_run_batch p (after_setup self).
Proof.
  intros HR Hok.
  pose proof (after_setup_not_INIT Hok) as Hne.
  rewrite (run_batch_after_setup p Hok).
  rewrite (@run_batch_dispatch (after_setup self) p Hne).
  now rewrite after_setup_keeps_runner, HR.
Qed.

(** X5: when wrapping an argument into its batch raises, [run] raises
    the same and the unit's batch execution is not entered. *)
Theorem run_wrapping_failure self p e :
  isinstance_Runner (_runner self) = true ->
  setup_succeeds self ->
  Params_map (fun i => singles_to_batch [i]
                         (input_batch_axis (batch_options (_runner self)))) p
    = Raise e ->
  run p self = (after_setup self, Raise e).
Proof.
  intros HR Hok Hp.
  pose proof (after_setup_not_INIT Hok) as Hne.
  rewrite (run_after_setup p Hok).
  apply RunnerState_eqb_neq in Hne. unfold run, bind. rewrite Hne.
  unfold ret at 1. rewrite after_setup_keeps_runner, HR.
  unfold lift at 1. now rewrite Hp.
Qed.

(** X6: an exception of the unit's batch execution leaves [run] as it
    is; the unit was entered once, on the wrapped parameters. *)
Theorem run_unit_failure self p p' (u : U) e :
  isinstance_Runner (_runner self) = true ->
  setup_succeeds self ->
  Params_map (fun i => singles_to_batch [i]
                         (input_batch_axis (batch_options (_runner self)))) p
    = Ok p' ->
  _run_batch (_runner self) p' (unit_state (after_setup self)) = (u, Raise e) ->
  run p self
  = (mkLocalRunner (_state (after_setup self)) (_runner self) u
       (trace (after_setup self) ++ [EvRunBatch p']), Raise e).
Proof.
  intros HR Hok Hp Hb.
  pose proof (after_setup_not_INIT Hok) as Hne.
  rewrite (run_after_setup p Hok).
  apply RunnerState_eqb_neq in Hne. unfold run, bind. rewrite Hne.
  unfold ret at 1. rewrite after_setup_keeps_runner, HR.
  unfold lift at 1. rewrite Hp. unfold call_run_batch.
  rewrite after_setup_keeps_runner, Hb. reflexivity.
Qed.

(** X7: one call enters the unit's setup routine at most once and an
    execution routine at most once, whatever the unit does. *)
Theorem call_enters_unit_at_most_once self (c : call) :
  exists tr,
    trace (perform c self) = trace self ++ tr
    /\ setup_calls tr <= 1 /\ execution_calls tr <= 1.
Proof.
  assert (Hpast : forall s : LocalRunner U, _state s <> INIT ->
            exists tr, trace (perform c s) = trace s ++ tr
                       /\ setup_calls tr = 0 /\ execution_calls tr <= 1).
  { intros s H. destruct c as [|p|p]; simpl.
    - rewrite (setup_past_INIT _ H). exists []. rewrite app_nil_r.
      repeat split; auto.
    - destruct (@run_past_INIT s p H) as [tr (? & ? & ? & ? & _)].
      exists tr. auto.
    - destruct (@run_batch_past_INIT s p H) as [tr (? & ? & ? & ? & _)].
      exists tr. auto. }
  destruct (RunnerState_eqb (_state self) INIT) eqn:E.
  - apply RunnerState_eqb_eq in E.
    destruct (snd (_setup (_runner self) (unit_state self))) as [[]|e] eqn:Hr.
    + assert (Hok : setup_succeeds self) by (intros _; exact Hr).
      rewrite (perform_after_setup c Hok).
      destruct (Hpast (after_setup self) (after_setup_not_INIT Hok))
        as [tr (Ht & Hs & Hx)].
      rewrite Ht, (after_setup_from_INIT _ E Hr). simpl.
      exists ([EvState SETTING; EvSetup; EvState SET] ++ tr).
      rewrite app_assoc, setup_calls_app, execution_calls_app, Hs.
      repeat split; simpl; auto.
    + rewrite (@perform_setup_raises self c e E Hr). simpl.
      exists [EvState SETTING; EvSetup]. repeat split; auto.
  - apply RunnerState_eqb_neq in E.
    destruct (Hpast self E) as [tr (Ht & Hs & Hx)].
    exists tr. rewrite Hs. auto.
Qed.

End LocalRunnerProperties.

(** ** The properties at concrete units *)


Lemma eager_container_plain :
  plain_container default_singles_to_batch eager_batch_to_singles.
Proof.
  constructor; intros; [reflexivity | | right; reflexivity].
  destruct batch; try reflexivity. discriminate.
Qed.

(** The scenario of the design document: [run(5)] wraps to the batch
    [[5]], the unit squares it to [[25]], the adapter returns [25]. *)
Example run_square_5 :
  run default_singles_to_batch default_batch_to_singles (mkParams [VInt 5] [])
    (new_LocalRunner square_runner)
  = (mkLocalRunner SET square_runner 1
       [EvState SETTING; EvSetup; EvState SET;
        EvRunBatch (mkParams [VList [VInt 5]] [])],
     Ok (VInt 25)).
Proof. reflexivity. Qed.



(** Three calls on the squaring unit, whose state counts the completed
    setups: one setup has run. *)
Lemma setup_exactly_once_witness :
  _state (perform_all default_singles_to_batch default_batch_to_singles
            [CallRun (mkParams [VInt 5] []); CallSetup;
             CallRunBatch (mkParams [VList [VInt 2; VInt 3]] [])]
            (new_LocalRunner square_runner)) = SET
  /\ unit_state (perform_all default_singles_to_batch default_batch_to_singles
                   [CallRun (mkParams [VInt 5] []); CallSetup;
                    CallRunBatch (mkParams [VList [VInt 2; VInt 3]] [])]
                   (new_LocalRunner square_runner)) = 1.
Proof.
  pose proof (@setup_exactly_once nat default_singles_to_batch default_batch_to_singles
                (new_LocalRunner square_runner) (CallRun (mkParams [VInt 5] []))
                [CallSetup; CallRunBatch (mkParams [VList [VInt 2; VInt 3]] [])]
                eq_refl eq_refl) as H.
  exact (conj (proj1 H) (proj1 (proj2 H))).
Defined.

Lemma run_batch_on_simple_runner_witness :
  snd (run_batch (mkParams [VList [VInt 5]] []) (new_LocalRunner simple_square_runner))
    = Raise UnsupportedOperation
  /\ execution_calls (trace (fst (run_batch (mkParams [VList [VInt 5]] [])
                                    (new_LocalRunner simple_square_runner))))
     = execution_calls (trace (new_LocalRunner simple_square_runner)).
Proof.
  pose proof (@run_batch_on_simple_runner nat (new_LocalRunner simple_square_runner)
                (mkParams [VList [VInt 5]] []) eq_refl eq_refl) as H.
  split; [|exact (proj1 (proj2 H))].
  exact (proj2 (proj2 H) (fun _ => eq_refl)).
Defined.

Lemma setup_failure_propagates_witness :
  snd (setup (new_LocalRunner broken_runner))
    = Raise (UserError "OSError" "model file missing")
  /\ _state (fst (setup (new_LocalRunner broken_runner))) = SETTING.
Proof.
  pose proof (@setup_failure_propagates nat default_singles_to_batch
                default_batch_to_singles (new_LocalRunner broken_runner)
                (UserError "OSError" "model file missing")
                eq_refl eq_refl) as H.
  split; [exact (proj1 H) | exact (proj1 (proj2 H))].
Defined.

(** C5, as it is worded, fails: the unit answers with an iterator of
    one value that is no generator object, the conversion hands it
    on, and [run] raises [TypeError] instead of returning the value. *)
Lemma run_does_not_materialize_iterator :
  isinstance_Runner iterator_square_runner = true
  /\ _run_batch iterator_square_runner (mkParams [VList [VInt 5]] []) 1
     = (1, Ok (VIter [VInt 25]))
  /\ isinstance_GeneratorType (VIter [VInt 25]) = false
  /\ run default_singles_to_batch default_batch_to_singles (mkParams [VInt 5] [])
       (new_LocalRunner iterator_square_runner)
     = (mkLocalRunner SET iterator_square_runner 1
          [EvState SETTING; EvSetup; EvState SET;
           EvRunBatch (mkParams [VList [VInt 5]] [])],
        Raise (TypeError "'list_iterator' object is not subscriptable")).
Proof. repeat split. Qed.

Lemma run_materializes_generators_only_witness :
  run default_singles_to_batch default_batch_to_singles (mkParams [VInt 5] [])
    (new_LocalRunner lazy_square_runner)
  = (mkLocalRunner SET lazy_square_runner 1
       [EvState SETTING; EvSetup; EvState SET;
        EvRunBatch (mkParams [VList [VInt 5]] [])],
     Ok (VInt 25))
  /\ run default_singles_to_batch default_batch_to_singles (mkParams [VInt 5] [])
       (new_LocalRunner iterator_square_runner)
     = (mkLocalRunner SET iterator_square_runner 1
          [EvState SETTING; EvSetup; EvState SET;
           EvRunBatch (mkParams [VList [VInt 5]] [])],
        Raise (TypeError "'list_iterator' object is not subscriptable")).
Proof.
  split.
  - exact (proj1 (proj1 (@run_materializes_generators_only nat default_singles_to_batch
                           default_batch_to_singles
                           (new_LocalRunner lazy_square_runner)
                           (mkParams [VInt 5] []) (mkParams [VList [VInt 5]] []) 1
                           (VInt 25) eq_refl (fun _ => eq_refl) eq_refl)
                    eq_refl (or_introl eq_refl))).
  - exact (proj2 (@run_materializes_generators_only nat default_singles_to_batch
                    default_batch_to_singles
                    (new_LocalRunner iterator_square_runner)
                    (mkParams [VInt 5] []) (mkParams [VList [VInt 5]] []) 1
                    (VInt 25) eq_refl (fun _ => eq_refl) eq_refl)
             eq_refl eq_refl).
Defined.

(** The same with the conversion that materializes by itself. *)
Example run_lazy_square_5_eager :
  snd (run default_singles_to_batch eager_batch_to_singles (mkParams [VInt 5] [])
         (new_LocalRunner lazy_square_runner)) = Ok (VInt 25).
Proof. reflexivity. Qed.

(** C6, as it is worded, fails: the unit answers the one input with
    two values, the conversion recovers both, and [run] raises nothing
    but returns the first of them. *)
Lemma run_two_singles_no_failure :
  _run_batch twofold_runner (mkParams [VList [VInt 5]] []) 1
    = (1, Ok (VList [VInt 25; VInt 5]))
  /\ default_batch_to_singles (VList [VInt 25; VInt 5]) (Some 0%Z)
    = Ok (VList [VInt 25; VInt 5])
  /\ List.length [VInt 25; VInt 5] <> 1
  /\ run default_singles_to_batch default_batch_to_singles (mkParams [VInt 5] [])
       (new_LocalRunner twofold_runner)
     = (mkLocalRunner SET twofold_runner 1
          [EvState SETTING; EvSetup; EvState SET;
           EvRunBatch (mkParams [VList [VInt 5]] [])],
        Ok (VInt 25))
  /\ ~ (exists e,
          snd (run default_singles_to_batch default_batch_to_singles
                 (mkParams [VInt 5] []) (new_LocalRunner twofold_runner))
          = Raise e).
Proof.
  repeat split; try reflexivity.
  - discriminate.
  - intros [e H]. discriminate H.
Qed.

Lemma run_returns_first_single_witness :
  snd (run default_singles_to_batch default_batch_to_singles (mkParams [VInt 5] [])
         (new_LocalRunner twofold_runner)) = Ok (VInt 25).
Proof.
  exact (proj1 (@run_returns_first_single nat default_singles_to_batch
                  default_batch_to_singles (new_LocalRunner twofold_runner)
                  (mkParams [VInt 5] []) (mkParams [VList [VInt 5]] []) 1
                  (VList [VInt 25; VInt 5]) (VList [VInt 25; VInt 5])
                  (VInt 25) [VInt 5]
                  eq_refl (fun _ => eq_refl) eq_refl eq_refl eq_refl)
           eq_refl).
Defined.

(** With no value recovered the indexing fails. *)
Example run_silent_runner :
  snd (run default_singles_to_batch default_batch_to_singles (mkParams [VInt 5] [])
         (new_LocalRunner silent_runner))
  = Raise (IndexError "list index out of range").
Proof. reflexivity. Qed.

Lemma run_on_other_unit_returns_None_witness :
  run default_singles_to_batch default_batch_to_singles (mkParams [VInt 5] [])
    (new_LocalRunner bare_runner)
  = (after_setup (new_LocalRunner bare_runner), Ok VNone)
  /\ run_batch (mkParams [VInt 5] []) (new_LocalRunner bare_runner)
  = (after_setup (new_LocalRunner bare_runner), Ok VNone)
  /\ _state (after_setup (new_LocalRunner bare_runner)) = SET.
Proof.
  pose proof (@run_on_other_unit_returns_None nat default_singles_to_batch
                default_batch_to_singles (new_LocalRunner bare_runner)
                (mkParams [VInt 5] []) eq_refl eq_refl (fun _ => eq_refl)) as H.
  split; [exact (proj1 H)|]. split; [exact (proj1 (proj2 H))|].
  exact (proj1 (proj2 (proj2 H) eq_refl)).
Defined.

(** After a failed setup and a first [run], the broken batch unit, in
    the state the failed setup left, squares a batch; the broken
    scalar unit squares a value. *)
Lemma failed_setup_never_retried_witness :
  run_batch (mkParams [VList [VInt 2; VInt 3]] [])
    (perform_all default_singles_to_batch default_batch_to_singles
       [CallSetup; CallRun (mkParams [VInt 5] [])] (new_LocalRunner broken_runner))
  = (mkLocalRunner SETTING broken_runner 0
       [EvState SETTING; EvSetup; EvRunBatch (mkParams [VList [VInt 5]] []);
        EvRunBatch (mkParams [VList [VInt 2; VInt 3]] [])],
     Ok (VList [VInt 4; VInt 9]))
  /\ run default_singles_to_batch default_batch_to_singles (mkParams [VInt 5] [])
       (perform_all default_singles_to_batch default_batch_to_singles
          [CallRunBatch (mkParams [VInt 5] [])] (new_LocalRunner broken_simple_runner))
     = (mkLocalRunner SETTING broken_simple_runner 0
          [EvState SETTING; EvSetup; EvRun (mkParams [VInt 5] [])],
        Ok (VInt 25)).
Proof.
  split.
  - pose proof (@failed_setup_never_retried nat default_singles_to_batch
                  default_batch_to_singles (new_LocalRunner broken_runner)
                  (UserError "OSError" "model file missing")
                  CallSetup [CallRun (mkParams [VInt 5] [])] _
                  eq_refl eq_refl eq_refl) as H.
    exact (proj1 (proj2 (proj2 (proj2 (proj2 (proj2 H))))) eq_refl
             (mkParams [VList [VInt 2; VInt 3]] [])).
  - pose proof (@failed_setup_never_retried nat default_singles_to_batch
                  default_batch_to_singles (new_LocalRunner broken_simple_runner)
                  (UserError "OSError" "model file missing")
                  (CallRunBatch (mkParams [VInt 5] [])) [] _
                  eq_refl eq_refl eq_refl) as H.
    exact (proj2 (proj2 (proj2 (proj2 (proj2 (proj2 (proj2 H)))))) eq_refl eq_refl
             (mkParams [VInt 5] [])).
Defined.

(** C7, as it is worded, fails: the unit's execution raises
    [StopIteration], [run] raises it, and the coroutine of [async_run]
    raises [RuntimeError]. *)
Lemma async_run_replaces_StopIteration :
  run default_singles_to_batch default_batch_to_singles (mkParams [VInt 5] [])
    (new_LocalRunner exhausted_runner)
  = (mkLocalRunner SET exhausted_runner 1
       [EvState SETTING; EvSetup; EvState SET; EvRun (mkParams [VInt 5] [])],
     Raise StopIteration)
  /\ drive 1 (async_run default_singles_to_batch default_batch_to_singles
                (mkParams [VInt 5] [])) (new_LocalRunner exhausted_runner)
     = Some (mkLocalRunner SET exhausted_runner 1
               [EvState SETTING; EvSetup; EvState SET; EvRun (mkParams [VInt 5] [])],
             Raise (RuntimeError "coroutine raised StopIteration"), 0)
  /\ @Raise value StopIteration <> Raise (RuntimeError "coroutine raised StopIteration").
Proof. repeat split. discriminate. Qed.

Lemma async_entry_points_follow_sync_witness :
  drive 1 (async_run default_singles_to_batch default_batch_to_singles
             (mkParams [VInt 5] [])) (new_LocalRunner simple_square_runner)
  = Some (mkLocalRunner SET simple_square_runner 1
            [EvState SETTING; EvSetup; EvState SET; EvRun (mkParams [VInt 5] [])],
          Ok (VInt 25), 0)
  /\ drive 1 (async_run_batch (mkParams [VList [VInt 2; VInt 3]] []))
       (new_LocalRunner square_runner)
     = Some (mkLocalRunner SET square_runner 1
               [EvState SETTING; EvSetup; EvState SET;
                EvRunBatch (mkParams [VList [VInt 2; VInt 3]] [])],
             Ok (VList [VInt 4; VInt 9]), 0)
  /\ drive 1 (async_run default_singles_to_batch default_batch_to_singles
                (mkParams [VInt 5] [])) (new_LocalRunner exhausted_runner)
     = Some (mkLocalRunner SET exhausted_runner 1
               [EvState SETTING; EvSetup; EvState SET; EvRun (mkParams [VInt 5] [])],
             Raise (RuntimeError "coroutine raised StopIteration"), 0).
Proof.
  split; [|split].
  - apply (proj1 (@async_entry_points_follow_sync nat default_singles_to_batch
                    default_batch_to_singles (new_LocalRunner simple_square_runner)
                    (mkParams [VInt 5] []) 0)).
    discriminate.
  - apply (proj1 (proj2 (@async_entry_points_follow_sync nat default_singles_to_batch
                           default_batch_to_singles (new_LocalRunner square_runner)
                           (mkParams [VList [VInt 2; VInt 3]] []) 0))).
    discriminate.
  - apply (proj1 (proj2 (proj2 (@async_entry_points_follow_sync nat
                                  default_singles_to_batch default_batch_to_singles
                                  (new_LocalRunner exhausted_runner)
                                  (mkParams [VInt 5] []) 0)))).
    reflexivity.
Defined.

(** After the failed setup, [run] on the broken unit still squares. *)
Example run_after_failed_setup :
  run default_singles_to_batch default_batch_to_singles (mkParams [VInt 5] [])
    (fst (setup (new_LocalRunner broken_runner)))
  = (mkLocalRunner SETTING broken_runner 0
       [EvState SETTING; EvSetup; EvRunBatch (mkParams [VList [VInt 5]] [])],
     Ok (VInt 25)).
Proof. reflexivity. Qed.

(** A scalar-only unit whose setup raises: [run_batch] raises the
    setup's exception, not the dispatch error. *)
Example run_batch_broken_simple_runner :
  run_batch (mkParams [VList [VInt 5]] []) (new_LocalRunner broken_simple_runner)
  = (mkLocalRunner SETTING broken_simple_runner 0 [EvState SETTING; EvSetup],
     Raise (UserError "OSError" "model file missing")).
Proof. reflexivity. Qed.

(** A generator cannot be indexed: [run_batch([5])[0]] on the lazy
    unit raises, where [run(5)] returns. *)
Example run_batch_lazy_not_subscriptable :
  bind (run_batch (mkParams [VList [VInt 5]] [])) (fun batch => lift (getitem batch 0))
    (new_LocalRunner lazy_square_runner)
  = (mkLocalRunner SET lazy_square_runner 1
       [EvState SETTING; EvSetup; EvState SET;
        EvRunBatch (mkParams [VList [VInt 5]] [])],
     Raise (TypeError "'generator' object is not subscriptable")).
Proof. reflexivity. Qed.

(** ** Further properties at concrete units *)

Lemma run_on_simple_runner_delegates_witness :
  run default_singles_to_batch default_batch_to_singles (mkParams [VInt 5] [])
    (new_LocalRunner simple_square_runner)
  = (mkLocalRunner SET simple_square_runner 1
       [EvState SETTING; EvSetup; EvState SET; EvRun (mkParams [VInt 5] [])],
     Ok (VInt 25)).
Proof.
  exact (@run_on_simple_runner_delegates nat default_singles_to_batch
           default_batch_to_singles (new_LocalRunner simple_square_runner)
           (mkParams [VInt 5] []) eq_refl eq_refl (fun _ => eq_refl)).
Defined.

Lemma run_batch_delegates_witness :
  run_batch (mkParams [VList [VInt 2; VInt 3]] []) (new_LocalRunner hybrid_runner)
  = (mkLocalRunner SET hybrid_runner 1
       [EvState SETTING; EvSetup; EvState SET;
        EvRunBatch (mkParams [VList [VInt 2; VInt 3]] [])],
     Ok (VList [VInt 4; VInt 9])).
Proof.
  exact (@run_batch_delegates nat (new_LocalRunner hybrid_runner)
           (mkParams [VList [VInt 2; VInt 3]] []) eq_refl (fun _ => eq_refl)).
Defined.

Lemma run_wrapping_failure_witness :
  run axis0_singles_to_batch default_batch_to_singles (mkParams [VInt 5] [])
    (new_LocalRunner axis1_square_runner)
  = (mkLocalRunner SET axis1_square_runner 1 [EvState SETTING; EvSetup; EvState SET],
     Raise (UserError "AssertionError" "batch_axis must be 0")).
Proof.
  exact (@run_wrapping_failure nat axis0_singles_to_batch default_batch_to_singles
           (new_LocalRunner axis1_square_runner) (mkParams [VInt 5] [])
           (UserError "AssertionError" "batch_axis must be 0")
           eq_refl (fun _ => eq_refl) eq_refl).
Defined.

Lemma run_unit_failure_witness :
  run default_singles_to_batch default_batch_to_singles (mkParams [VInt 5] [])
    (new_LocalRunner unimplemented_runner)
  = (mkLocalRunner SET unimplemented_runner 1
       [EvState SETTING; EvSetup; EvState SET;
        EvRunBatch (mkParams [VList [VInt 5]] [])],
     Raise (UserError "NotImplementedError" "")).
Proof.
  exact (@run_unit_failure nat default_singles_to_batch default_batch_to_singles
           (new_LocalRunner unimplemented_runner) (mkParams [VInt 5] [])
           (mkParams [VList [VInt 5]] []) 1 (UserError "NotImplementedError" "")
           eq_refl (fun _ => eq_refl) eq_refl eq_refl).
Defined.

(** ** The conda environment, further properties *)

Lemma add_channels_cases (channels : list string) (self : CondaEnv) :
  add_channels channels self =
    if forallb (contains (conda_channels self)) channels then self
    else mkCondaEnv (conda_name self) (conda_channels self ++ channels)
           (conda_dependencies self).
Proof. unfold add_channels. apply add_channels_loop, incl_refl. Qed.

(** X8: adding the same channels a second time changes nothing. *)
Theorem add_channels_idempotent (channels : list string) (self : CondaEnv) :
  add_channels channels (add_channels channels self) = add_channels channels self.
Proof.
  rewrite (add_channels_cases channels self).
  destruct (forallb (contains (conda_channels self)) channels) eqn:E.
  - rewrite add_channels_cases. now rewrite E.
  - rewrite add_channels_cases. simpl.
    now rewrite (forallb_contains_app _ (incl_refl channels)).
Qed.

(** X9: after [add_channels] every given channel is in the list, and
    the channels that were there before are still its beginning, in
    their order. *)
Theorem add_channels_keeps_and_covers (channels : list string) (self : CondaEnv) :
  (exists added,
     conda_channels (add_channels channels self) = conda_channels self ++ added)
  /\ incl channels (conda_channels (add_channels channels self)).
Proof.
  rewrite add_channels_cases.
  destruct (forallb (contains (conda_channels self)) channels) eqn:E; simpl.
  - split.
    + exists []. now rewrite app_nil_r.
    + intros c Hc. apply contains_In.
      rewrite forallb_forall in E. now apply E.
  - split.
    + now exists channels.
    + intros c Hc. apply in_or_app. now right.
Qed.

(** X10: when the channel list and the given channels are each free of
    repetitions and share no name, the list stays free of
    repetitions: it is the old list followed by the given channels. *)
Theorem add_channels_disjoint (channels : list string) (self : CondaEnv) :
  NoDup (conda_channels self) ->
  NoDup channels ->
  (forall c, In c channels -> ~ In c (conda_channels self)) ->
  conda_channels (add_channels channels self) = conda_channels self ++ channels
  /\ NoDup (conda_channels (add_channels channels self)).
Proof.
  intros Hold Hnew Hdisj. rewrite add_channels_cases.
  destruct (forallb (contains (conda_channels self)) channels) eqn:E; simpl.
  - destruct channels as [|c cs].
    + rewrite app_nil_r. auto.
    + simpl in E. apply andb_prop in E. destruct E as [E _].
      apply contains_In in E. exfalso. apply (Hdisj c); [now left | exact E].
  - split; [reflexivity|]. apply NoDup_app; auto.
    intros a Ha Hb. exact (Hdisj a Hb Ha).
Qed.

Lemma add_channels_disjoint_witness :
  conda_channels (add_channels ["bioconda"; "pytorch"] DEFAULT_CONDA_ENV_BASE)
    = ["conda-forge"; "defaults"; "bioconda"; "pytorch"]
  /\ NoDup (conda_channels (add_channels ["bioconda"; "pytorch"] DEFAULT_CONDA_ENV_BASE)).
Proof.
  apply (@add_channels_disjoint ["bioconda"; "pytorch"] DEFAULT_CONDA_ENV_BASE).
  - repeat constructor; simpl; intuition discriminate.
  - repeat constructor; simpl; intuition discriminate.
  - simpl. intros c [H|[H|[]]] [H'|[H'|[]]]; subst; discriminate.
Defined.

(** ** Texts and dictionaries *)

Lemma split_newline_not_nil (s : string) : split_newline s <> [].
Proof.
  destruct s as [|c s]; simpl; [discriminate|].
  destruct (Ascii.eqb c newline); [discriminate|].
  destruct (split_newline s); discriminate.
Qed.

Lemma split_newline_length (s : string) :
  List.length (split_newline s) = S (count_newlines s).
Proof.
  induction s as [|c s IH]; simpl; [reflexivity|].
  destruct (Ascii.eqb c newline); simpl.
  - now rewrite IH.
  - destruct (split_newline s) as [|piece pieces]; simpl in *; [discriminate | exact IH].
Qed.

Lemma join_split_newline (s : string) : join_newline (split_newline s) = s.
Proof.
  unfold join_newline. induction s as [|c s IH]; simpl; [reflexivity|].
  destruct (Ascii.eqb c newline) eqn:E.
  - apply Ascii.eqb_eq in E. subst c.
    pose proof (split_newline_not_nil s) as Hne.
    destruct (split_newline s) as [|piece pieces]; [contradiction|].
    simpl in *. now rewrite IH.
  - pose proof (split_newline_not_nil s) as Hne.
    destruct (split_newline s) as [|piece pieces]; [contradiction|].
    simpl in *. destruct pieces; simpl in *; now rewrite <- IH.
Qed.

Lemma split_newline_pieces (s : string) :
  Forall (fun piece => has_newline piece = false) (split_newline s).
Proof.
  induction s as [|c s IH]; simpl.
  - repeat constructor.
  - destruct (Ascii.eqb c newline) eqn:E.
    + constructor; [reflexivity | exact IH].
    + destruct (split_newline s) as [|piece pieces]; simpl.
      * repeat constructor. simpl. now rewrite E.
      * inversion IH; subst. constructor; [|assumption]. simpl. now rewrite E.
Qed.

Lemma dict_set_not_nil (V : Type) (k : string) (v : V) (d : list (string * V)) :
  dict_set k v d <> [].
Proof.
  destruct d as [|[k' v'] d]; simpl; [discriminate|].
  destruct (String.eqb k k'); discriminate.
Qed.

Lemma dict_set_keys (V : Type) (k : string) (v : V) (d : list (string * V)) :
  map fst (dict_set k v d)
  = if contains (map fst d) k then map fst d else map fst d ++ [k].
Proof.
  induction d as [|[k' v'] d IH]; simpl; [reflexivity|].
  destruct (String.eqb k k') eqn:E; simpl.
  - apply String.eqb_eq in E. now subst.
  - rewrite IH. unfold contains. now destruct (existsb (String.eqb k) (map fst d)).
Qed.

Lemma dict_set_keys_NoDup (V : Type) (k : string) (v : V) (d : list (string * V)) :
  NoDup (map fst d) -> NoDup (map fst (dict_set k v d)).
Proof.
  intros H. rewrite dict_set_keys.
  destruct (contains (map fst d) k) eqn:E; [exact H|].
  apply NoDup_app; [exact H | repeat constructor; intros [] |].
  intros a Ha [Hb|[]]. subst a.
  apply contains_In in Ha. congruence.
Qed.

Lemma dict_set_keys_incl (V : Type) (k : string) (v : V) (d : list (string * V)) :
  incl (k :: map fst d) (map fst (dict_set k v d)).
Proof.
  rewrite dict_set_keys. intros a [Ha|Ha].
  - subst a. destruct (contains (map fst d) k) eqn:E.
    + now apply contains_In.
    + apply in_or_app. right. now left.
  - destruct (contains (map fst d) k); [exact Ha | apply in_or_app; now left].
Qed.

Lemma dict_get_set_same (V : Type) (k : string) (v : V) (d : list (string * V)) :
  dict_get k (dict_set k v d) = Some v.
Proof.
  induction d as [|[k' v'] d IH]; simpl.
  - now rewrite String.eqb_refl.
  - destruct (String.eqb k k') eqn:E; simpl.
    + now rewrite String.eqb_refl.
    + now rewrite E.
Qed.

Lemma dict_get_set_other (V : Type) (k k' : string) (v : V) (d : list (string * V)) :
  k <> k' -> dict_get k' (dict_set k v d) = dict_get k' d.
Proof.
  intros Hne. induction d as [|[k0 v0] d IH]; simpl.
  - assert (E : String.eqb k' k = false) by (apply String.eqb_neq; congruence).
    now rewrite E.
  - destruct (String.eqb k k0) eqn:E; simpl.
    + apply String.eqb_eq in E. subst k0.
      assert (E' : String.eqb k' k = false) by (apply String.eqb_neq; congruence).
      now rewrite E'.
    + now rewrite IH.
Qed.

(** ** The service environment *)

Section ServiceEnvProperties.

Variable files : string -> option string.
Variable directories : string -> bool.
Variable yaml_load : string -> CondaEnv.
Variable utf8_decode : string -> result string.
Variable utf8_encode : string -> string.
Variable PYTHON_VERSION : string.
Variable get_bentoml_deploy_version : string.
Variable default_docker_base_image : string.
Variable parse_requirement_string : string -> string * option string.

Local Abbreviation CondaEnv_init := (CondaEnv_init files yaml_load).
Local Abbreviation BentoServiceEnv_init :=
  (BentoServiceEnv_init files directories yaml_load utf8_decode utf8_encode
     PYTHON_VERSION get_bentoml_deploy_version default_docker_base_image).
Local Abbreviation add_packages_from_requirements_txt_file :=
  (add_packages_from_requirements_txt_file files directories utf8_decode).
Local Abbreviation set_setup_sh := (set_setup_sh files utf8_encode).
Local Abbreviation dependencies_map :=
  (dependencies_map get_bentoml_deploy_version parse_requirement_string).
Local Abbreviation save := (save get_bentoml_deploy_version parse_requirement_string).
Local Abbreviation apply_call :=
  (apply_call files directories utf8_decode utf8_encode get_bentoml_deploy_version
     parse_requirement_string).
Local Abbreviation apply_calls :=
  (apply_calls files directories utf8_decode utf8_encode get_bentoml_deploy_version
     parse_requirement_string).

(** The loop of [save] over the requirement strings. *)
Local Abbreviation parsed_into acc deps :=
  (fold_left (fun d dep =>
                let (name, version) := parse_requirement_string dep in
                dict_set name version d) deps acc).

Lemma parsed_into_NoDup (deps : list string) :
  forall acc, NoDup (map fst acc) -> NoDup (map fst (parsed_into acc deps)).
Proof.
  induction deps as [|dep deps IH]; intros acc H; simpl; [exact H|].
  apply IH. destruct (parse_requirement_string dep) as [name version].
  now apply dict_set_keys_NoDup.
Qed.

Lemma parsed_into_keys (deps : list string) :
  forall acc,
    incl (map fst acc ++ map (fun dep => fst (parse_requirement_string dep)) deps)
      (map fst (parsed_into acc deps)).
Proof.
  induction deps as [|dep deps IH]; intros acc; simpl.
  - rewrite app_nil_r. apply incl_refl.
  - intros a Ha. apply IH.
    destruct (parse_requirement_string dep) as [name version] eqn:E. simpl in *.
    apply in_app_or in Ha. destruct Ha as [Ha|[Ha|Ha]].
    + apply in_or_app. left. apply dict_set_keys_incl. now right.
    + apply in_or_app. left. apply dict_set_keys_incl. now left.
    + apply in_or_app. now right.
Qed.

Lemma parsed_into_not_nil (deps : list string) :
  forall acc, acc <> [] \/ deps <> [] -> parsed_into acc deps <> [].
Proof.
  induction deps as [|dep deps IH]; intros acc H; simpl.
  - destruct H as [H|H]; [exact H | contradiction].
  - apply IH. left. destruct (parse_requirement_string dep). apply dict_set_not_nil.
Qed.

Lemma parsed_into_untouched (k : string) (deps : list string) :
  forall acc,
    (forall dep, In dep deps -> fst (parse_requirement_string dep) <> k) ->
    dict_get k (parsed_into acc deps) = dict_get k acc.
Proof.
  induction deps as [|dep deps IH]; intros acc H; simpl; [reflexivity|].
  rewrite IH by (intros d Hd; apply H; now right).
  specialize (H dep (or_introl eq_refl)).
  destruct (parse_requirement_string dep) as [name version]. simpl in H.
  now apply dict_get_set_other.
Qed.

Lemma parsed_into_last (before after : list string) (dep : string) :
  forall acc,
    (forall later, In later after ->
       fst (parse_requirement_string later) <> fst (parse_requirement_string dep)) ->
    dict_get (fst (parse_requirement_string dep)) (parsed_into acc (before ++ dep :: after))
    = Some (snd (parse_requirement_string dep)).
Proof.
  intros acc H. rewrite fold_left_app. simpl.
  rewrite parsed_into_untouched by exact H.
  destruct (parse_requirement_string dep) as [name version]. simpl.
  apply dict_get_set_same.
Qed.

Lemma dict_update_NoDup (V : Type) (other : list (string * V)) :
  forall d, NoDup (map fst d) -> NoDup (map fst (dict_update other d)).
Proof.
  unfold dict_update. induction other as [|[k v] other IH]; intros d H; simpl;
    [exact H|]. apply IH. now apply dict_set_keys_NoDup.
Qed.

Lemma dict_update_keys (V : Type) (other : list (string * V)) :
  forall d, incl (map fst d) (map fst (dict_update other d)).
Proof.
  unfold dict_update. induction other as [|[k v] other IH]; intros d; simpl.
  - apply incl_refl.
  - intros a Ha. apply IH. apply dict_set_keys_incl. now right.
Qed.

Lemma dict_update_not_nil (V : Type) (other : list (string * V)) :
  forall d, d <> [] -> dict_update other d <> [].
Proof.
  unfold dict_update. induction other as [|[k v] other IH]; intros d H; simpl;
    [exact H|]. apply IH, dict_set_not_nil.
Qed.

(** X11: a conda environment file that is given and is not there makes
    the constructor raise [BentoMLException] with the path in its
    message, whatever the other arguments are. *)
Theorem init_conda_env_file_missing pip idx host extra auto req channels deps
    (c : ascii) (path : string) sh image :
  files (String c path) = None ->
  BentoServiceEnv_init pip idx host extra auto req channels deps
    (Some (String c path)) sh image
  = Raise (BentoMLException
             ("Can not find conda environment config yaml file at: `"
              ++ String c path ++ "`")%string).
Proof.
  intros H. unfold BentoServiceEnv_init, CondaEnv_init.
  now rewrite H.
Qed.

Lemma dict_get_In (V : Type) (k : string) (v : V) (d : list (string * V)) :
  dict_get k d = Some v -> In (k, v) d.
Proof.
  induction d as [|[k' v'] d IH]; simpl; [discriminate|].
  destruct (String.eqb k k') eqn:E.
  - apply String.eqb_eq in E. intros H. inversion H. subst. now left.
  - intros H. right. now apply IH.
Qed.

Lemma set_setup_sh_pip_dependencies sh (self : BentoServiceEnv) :
  _pip_dependencies (set_setup_sh sh self) = _pip_dependencies self.
Proof.
  unfold set_setup_sh. destruct sh as [[|c s]|]; simpl; try reflexivity.
  destruct (files (String c s)); reflexivity.
Qed.

(** What the constructor leaves in [_pip_dependencies]. *)
Lemma init_pip_dependencies pip idx host extra auto req channels deps yml sh image env :
  BentoServiceEnv_init pip idx host extra auto req channels deps yml sh image = Ok env ->
  exists lines,
    _pip_dependencies env
    = lines ++ match pip with Some l => l | None => [] end
            ++ [("bentoml==" ++ get_bentoml_deploy_version)%string]
    /\ match req with
       | Some (String c path) =>
           exists content text,
             files (String c path) = Some content
             /\ utf8_decode content = Ok text
             /\ lines = split_newline text
       | _ => lines = []
       end.
Proof.
  unfold BentoServiceEnv_init.
  destruct (CondaEnv_init None channels deps yml) as [conda|e]; simpl; [|discriminate].
  assert (Hpip : forall self0 : BentoServiceEnv,
            _pip_dependencies
              (match pip with
               | Some (d :: ds) => add_python_packages (d :: ds) self0
               | _ => self0
               end)
            = match pip with Some l => l | None => [] end ++ _pip_dependencies self0).
  { intros self0. destruct pip as [[|d ds]|]; reflexivity. }
  destruct req as [[|c path]|]; simpl.
  - intros H. inversion H. subst env. simpl.
    rewrite set_setup_sh_pip_dependencies. simpl. exists []. rewrite Hpip. auto.
  - unfold add_packages_from_requirements_txt_file.
    destruct (files (String c path)) as [content|] eqn:Hf;
      [|destruct (directories (String c path)); discriminate].
    destruct (utf8_decode content) as [text|e] eqn:Hd; simpl; [|discriminate].
    intros H. inversion H. subst env. simpl.
    rewrite set_setup_sh_pip_dependencies. simpl. exists (split_newline text).
    rewrite Hpip. split; [reflexivity|]. now exists content, text.
  - intros H. inversion H. subst env. simpl.
    rewrite set_setup_sh_pip_dependencies. simpl. exists []. rewrite Hpip. auto.
Qed.


(** X13: in the environment that the constructor returns, the pip
    requirements are the lines of the decoded text of the requirements
    file (none when no file is given), then the given
    [pip_dependencies], then bentoml at the deploy version, which is
    always last. *)
Theorem init_pip_dependencies_order pip idx host extra auto req channels deps yml sh
    image env :
  BentoServiceEnv_init pip idx host extra auto req channels deps yml sh image = Ok env ->
  (exists lines,
     _pip_dependencies env
     = lines ++ match pip with Some l => l | None => [] end
             ++ [("bentoml==" ++ get_bentoml_deploy_version)%string]
     /\ match req with
        | Some (String c path) =>
            exists content text,
              files (String c path) = Some content
              /\ utf8_decode content = Ok text
              /\ lines = split_newline text
        | _ => lines = []
        end)
  /\ last (_pip_dependencies env) EmptyString
     = ("bentoml==" ++ get_bentoml_deploy_version)%string.
Proof.
  intros H. destruct (init_pip_dependencies _ _ _ _ _ _ _ _ _ _ _ H) as [lines [Hl Ht]].
  split; [now exists lines|].
  rewrite Hl, app_assoc. apply last_last.
Qed.

Lemma dependencies_map_not_nil found (self : BentoServiceEnv) :
  _pip_dependencies self <> [] -> dependencies_map found self <> [].
Proof.
  intros H. unfold dependencies_map.
  destruct (_auto_pip_dependencies self); [apply dict_set_not_nil|].
  apply parsed_into_not_nil. now right.
Qed.

Lemma apply_call_keeps_pip_dependencies (c : env_call) (self : BentoServiceEnv) :
  _pip_dependencies self <> [] -> _pip_dependencies (apply_call c self) <> [].
Proof.
  intros H. destruct c as [l|path|l|l|sh|found]; simpl.
  - intros E. apply app_eq_nil in E. tauto.
  - unfold add_packages_from_requirements_txt_file.
    destruct (files path) as [content|];
      [|destruct (directories path); exact H].
    destruct (utf8_decode content) as [text|e]; simpl; [|exact H].
    intros E. apply app_eq_nil in E. tauto.
  - exact H.
  - exact H.
  - now rewrite set_setup_sh_pip_dependencies.
  - intros E. apply map_eq_nil in E. now apply (@dependencies_map_not_nil found self H).
Qed.

(** X14: in an environment that the constructor returned, after any
    succession of calls of its methods, [_pip_dependencies] is not
    empty, so that the dictionary of [to_dict] always has the key
    [pip_dependencies]; its keys are [setup_sh] when there is a
    non-empty script, then [pip_dependencies], [conda_env],
    [python_version] and [docker_base_image]. *)
Theorem to_dict_always_has_pip_dependencies pip idx host extra auto req channels deps
    yml sh image env (calls : list env_call) :
  BentoServiceEnv_init pip idx host extra auto req channels deps yml sh image = Ok env ->
  _pip_dependencies (apply_calls calls env) <> []
  /\ dict_get "pip_dependencies" (to_dict (apply_calls calls env))
     = Some (EnvList (_pip_dependencies (apply_calls calls env)))
  /\ map fst (to_dict (apply_calls calls env))
     = (if truthy (_setup_sh (apply_calls calls env)) then ["setup_sh"] else [])
       ++ ["pip_dependencies"; "conda_env"; "python_version"; "docker_base_image"].
Proof.
  intros H.
  assert (Hne : _pip_dependencies (apply_calls calls env) <> []).
  { assert (H0 : _pip_dependencies env <> []).
    { destruct (init_pip_dependencies _ _ _ _ _ _ _ _ _ _ _ H) as [lines [Hl _]].
      rewrite Hl. intros E. apply app_eq_nil in E. destruct E as [_ E].
      apply app_eq_nil in E. destruct E as [_ E]. discriminate. }
    clear H. revert env H0. unfold apply_calls.
    induction calls as [|c calls IH]; intros env H0; simpl; [exact H0|].
    apply IH. now apply apply_call_keeps_pip_dependencies. }
  split; [exact Hne|].
  unfold to_dict.
  destruct (_pip_dependencies (apply_calls calls env)) as [|d ds]; [contradiction|].
  destruct (truthy (_setup_sh (apply_calls calls env))); split; reflexivity.
Qed.

(** X15: a requirements file that is there and decodes puts one entry
    per line in front of the requirements, in the order of the file:
    one more entry than the text has newline characters, so an empty
    file and a final newline each give an empty entry.  No entry holds
    a newline, and joined by newlines the entries are the text. *)
Theorem requirements_file_lines (path content text : string) (self : BentoServiceEnv) :
  files path = Some content ->
  utf8_decode content = Ok text ->
  exists self',
    add_packages_from_requirements_txt_file path self = Ok self'
    /\ _pip_dependencies self' = split_newline text ++ _pip_dependencies self
    /\ List.length (_pip_dependencies self')
       = S (count_newlines text) + List.length (_pip_dependencies self)
    /\ Forall (fun piece => has_newline piece = false) (split_newline text)
    /\ join_newline (split_newline text) = text
    /\ _conda_env self' = _conda_env self
    /\ _setup_sh self' = _setup_sh self.
Proof.
  intros Hf Hd. unfold add_packages_from_requirements_txt_file.
  rewrite Hf, Hd. simpl. eexists. split; [reflexivity|]. simpl.
  rewrite length_app, split_newline_length.
  repeat split; auto using split_newline_pieces, join_split_newline.
Qed.

(** X16: [save] keeps one requirement per package name: the names of
    [dependencies_map] are pairwise different, every name of a
    requirement that was there is among them, and the new
    [_pip_dependencies] has one line per name. *)
Theorem save_one_line_per_name found (self : BentoServiceEnv) :
  NoDup (map fst (dependencies_map found self))
  /\ incl (map (fun dep => fst (parse_requirement_string dep)) (_pip_dependencies self))
       (map fst (dependencies_map found self))
  /\ List.length (_pip_dependencies (fst (save found self)))
     = List.length (dependencies_map found self).
Proof.
  assert (Hn : NoDup (map fst (parsed_into [] (_pip_dependencies self))))
    by (apply parsed_into_NoDup; constructor).
  assert (Hi : incl (map (fun dep => fst (parse_requirement_string dep))
                       (_pip_dependencies self))
                 (map fst (parsed_into [] (_pip_dependencies self))))
    by (intros a Ha; apply (parsed_into_keys (_pip_dependencies self) []); exact Ha).
  unfold save, dependencies_map. simpl. rewrite length_map.
  destruct (_auto_pip_dependencies self); [|auto].
  split; [|split; [|reflexivity]].
  - apply dict_set_keys_NoDup. destruct found as [[reqs unknown]|]; [|exact Hn].
    now apply dict_update_NoDup.
  - intros a Ha. apply dict_set_keys_incl. right.
    destruct found as [[reqs unknown]|]; [|now apply Hi].
    apply dict_update_keys. now apply Hi.
Qed.

(** X17: without [auto_pip_dependencies], of several requirements with
    one package name [save] writes the version of the last one. *)
Theorem save_last_requirement_wins found (self : BentoServiceEnv)
    (before after : list string) (dep : string) :
  _auto_pip_dependencies self = false ->
  _pip_dependencies self = before ++ dep :: after ->
  (forall later, In later after ->
     fst (parse_requirement_string later) <> fst (parse_requirement_string dep)) ->
  dict_get (fst (parse_requirement_string dep)) (dependencies_map found self)
    = Some (snd (parse_requirement_string dep))
  /\ In (requirement_line (fst (parse_requirement_string dep))
           (snd (parse_requirement_string dep)))
       (_pip_dependencies (fst (save found self))).
Proof.
  intros Ha Hd Hl.
  assert (Hg : dict_get (fst (parse_requirement_string dep)) (dependencies_map found self)
               = Some (snd (parse_requirement_string dep))).
  { unfold dependencies_map. rewrite Ha, Hd. now apply parsed_into_last. }
  split; [exact Hg|]. simpl.
  apply dict_get_In in Hg.
  apply (in_map (fun kv => requirement_line (fst kv) (snd kv))) in Hg. exact Hg.
Qed.

(** X18: with [auto_pip_dependencies], [save] writes bentoml at the
    deploy version, whatever the requirements and the requirements
    found for the module say. *)
Theorem save_auto_pins_bentoml found (self : BentoServiceEnv) :
  _auto_pip_dependencies self = true ->
  dict_get "bentoml" (dependencies_map found self) = Some (Some get_bentoml_deploy_version)
  /\ In (requirement_line "bentoml" (Some get_bentoml_deploy_version))
       (_pip_dependencies (fst (save found self))).
Proof.
  intros Ha.
  assert (Hg : dict_get "bentoml" (dependencies_map found self)
               = Some (Some get_bentoml_deploy_version)).
  { unfold dependencies_map. rewrite Ha. apply dict_get_set_same. }
  split; [exact Hg|]. simpl.
  apply dict_get_In in Hg.
  apply (in_map (fun kv => requirement_line (fst kv) (snd kv))) in Hg. exact Hg.
Qed.

(** X19: when the parser reads the constructor's own bentoml
    requirement back as bentoml at the deploy version, a [save] right
    after the constructor writes bentoml at the deploy version, with or
    without [auto_pip_dependencies]: a bentoml version among the given
    requirements does not survive. *)
Theorem init_then_save_bentoml pip idx host extra auto req channels deps yml sh image
    env found :
  parse_requirement_string ("bentoml==" ++ get_bentoml_deploy_version)%string
    = ("bentoml", Some get_bentoml_deploy_version) ->
  BentoServiceEnv_init pip idx host extra auto req channels deps yml sh image = Ok env ->
  dict_get "bentoml" (dependencies_map found env) = Some (Some get_bentoml_deploy_version)
  /\ In (requirement_line "bentoml" (Some get_bentoml_deploy_version))
       (_pip_dependencies (fst (save found env))).
Proof.
  intros Hp H.
  assert (Hg : dict_get "bentoml" (dependencies_map found env)
               = Some (Some get_bentoml_deploy_version)).
  { unfold dependencies_map.
    destruct (_auto_pip_dependencies env); [apply dict_get_set_same|].
    destruct (init_pip_dependencies _ _ _ _ _ _ _ _ _ _ _ H) as [lines [Hl _]].
    rewrite Hl, app_assoc.
    pose proof (@parsed_into_last
                  (lines ++ match pip with Some l => l | None => [] end) []
                  ("bentoml==" ++ get_bentoml_deploy_version)%string []) as Hlast.
    rewrite Hp in Hlast. simpl fst in Hlast. simpl snd in Hlast.
    apply Hlast. intros later []. }
  split; [exact Hg|]. simpl.
  apply dict_get_In in Hg.
  apply (in_map (fun kv => requirement_line (fst kv) (snd kv))) in Hg. exact Hg.
Qed.

Lemma dict_set_new (V : Type) (k : string) (v : V) (d : list (string * V)) :
  ~ In k (map fst d) -> dict_set k v d = d ++ [(k, v)].
Proof.
  induction d as [|[k' v'] d IH]; simpl; intros H; [reflexivity|].
  destruct (String.eqb k k') eqn:E.
  - apply String.eqb_eq in E. subst. exfalso. apply H. now left.
  - rewrite IH; [reflexivity|]. intros Hin. apply H. now right.
Qed.

(** Reading back the lines of a dictionary with distinct names gives
    its items again, name by name, with the versions as parsed. *)
Lemma parsed_into_lines (m : list (string * option string)) :
  forall acc,
    NoDup (map fst acc ++ map fst m) ->
    (forall name version, In (name, version) m ->
       fst (parse_requirement_string (requirement_line name version)) = name) ->
    parsed_into acc (map (fun kv => requirement_line (fst kv) (snd kv)) m)
    = acc ++ map (fun kv =>
                    (fst kv,
                     snd (parse_requirement_string (requirement_line (fst kv) (snd kv)))))
               m.
Proof.
  induction m as [|[name version] m IH]; intros acc Hnd Hp; simpl.
  - now rewrite app_nil_r.
  - pose proof (Hp name version (or_introl eq_refl)) as Hname.
    destruct (parse_requirement_string (requirement_line name version))
      as [name' version'] eqn:E.
    simpl in Hname. subst name'. simpl.
    assert (Hnew : ~ In name (map fst acc)).
    { intros Hin. simpl in Hnd. apply NoDup_remove_2 in Hnd. apply Hnd.
      apply in_or_app. now left. }
    rewrite (@dict_set_new _ name version' acc Hnew), IH.
    + now rewrite <- app_assoc.
    + rewrite map_app. simpl. rewrite <- app_assoc. exact Hnd.
    + intros n v Hin. apply Hp. now right.
Qed.

(** X20: without [auto_pip_dependencies], when the parser reads every
    line that [save] wrote back as the same name with a version that
    writes the same line, a second [save] leaves the requirements as
    the first one made them. *)
Theorem save_twice found (self : BentoServiceEnv) :
  _auto_pip_dependencies self = false ->
  (forall name version,
     In (name, version) (dependencies_map found self) ->
     fst (parse_requirement_string (requirement_line name version)) = name
     /\ requirement_line name
          (snd (parse_requirement_string (requirement_line name version)))
        = requirement_line name version) ->
  _pip_dependencies (fst (save found (fst (save found self))))
  = _pip_dependencies (fst (save found self)).
Proof.
  intros Ha Hp.
  assert (Hnd : NoDup (map fst (dependencies_map found self))).
  { unfold dependencies_map. rewrite Ha. apply parsed_into_NoDup. constructor. }
  simpl. unfold dependencies_map at 1. simpl. rewrite Ha.
  rewrite (@parsed_into_lines (dependencies_map found self) []);
    [|exact Hnd | intros n v Hin; exact (proj1 (Hp n v Hin))].
  simpl. rewrite map_map. apply map_ext_in.
  intros [name version] Hin. simpl. exact (proj2 (Hp name version Hin)).
Qed.

End ServiceEnvProperties.

(** ** The service environment at a concrete world *)

Example example_init_env :
  example_init (Some ["bentoml==0.1"; "pandas"]) None None None false
    (Some "requirements.txt") None None None (Some "setup.sh") None
  = Ok example_env.
Proof. reflexivity. Qed.

(** What [save] makes of it: one line per name, the later bentoml
    requirement in the place of the first. *)
Example example_save :
  _pip_dependencies (fst (save "0.13.1" partition_requirement None example_env))
  = ["numpy==1.19"; "scipy"; ""; "bentoml==0.13.1"; "pandas"]
  /\ requirements_txt (snd (save "0.13.1" partition_requirement None example_env))
     = join_newline ["numpy==1.19"; "scipy"; ""; "bentoml==0.13.1"; "pandas"].
Proof. split; reflexivity. Qed.

Lemma init_conda_env_file_missing_witness :
  example_init None None None None false (Some "requirements.txt") None None
    (Some "missing.yml") None None
  = Raise (BentoMLException
             "Can not find conda environment config yaml file at: `missing.yml`").
Proof.
  exact (@init_conda_env_file_missing example_files example_directories example_yaml_load
           (fun b => Ok b) (fun t => t) "3.7.9" "0.13.1" "bentoml/model-server:0.13.1"
           None None None None false (Some "requirements.txt") None None
           "m"%char "issing.yml" None None eq_refl).
Defined.


Lemma init_pip_dependencies_order_witness :
  (exists lines,
     _pip_dependencies example_env
     = lines ++ ["bentoml==0.1"; "pandas"] ++ ["bentoml==0.13.1"]
     /\ exists content text,
          example_files "requirements.txt" = Some content
          /\ Ok content = Ok text
          /\ lines = split_newline text)
  /\ last (_pip_dependencies example_env) EmptyString = "bentoml==0.13.1".
Proof.
  exact (@init_pip_dependencies_order example_files example_directories
           example_yaml_load (fun b => Ok b) (fun t => t) "3.7.9" "0.13.1"
           "bentoml/model-server:0.13.1"
           (Some ["bentoml==0.1"; "pandas"]) None None None false
           (Some "requirements.txt") None None None (Some "setup.sh") None
           example_env eq_refl).
Defined.

Lemma to_dict_always_has_pip_dependencies_witness :
  _pip_dependencies
    (apply_calls example_files example_directories (fun b => Ok b) (fun t => t) "0.13.1"
       partition_requirement
       [AddPythonPackages ["flask"]; Save None; SetSetupSh None] example_env)
  <> [].
Proof.
  exact (proj1 (@to_dict_always_has_pip_dependencies example_files example_directories example_yaml_load
                  (fun b => Ok b) (fun t => t) "3.7.9" "0.13.1"
                  "bentoml/model-server:0.13.1" partition_requirement
                  (Some ["bentoml==0.1"; "pandas"]) None None None false
                  (Some "requirements.txt") None None None (Some "setup.sh") None
                  example_env
                  [AddPythonPackages ["flask"]; Save None; SetSetupSh None]
                  eq_refl)).
Defined.

Lemma requirements_file_lines_witness :
  exists self',
    add_packages_from_requirements_txt_file example_files example_directories
      (fun b => Ok b)
      "requirements.txt" example_env = Ok self'
    /\ _pip_dependencies self'
       = split_newline ("numpy==1.19" ++ String newline ("scipy" ++ String newline ""))
         ++ _pip_dependencies example_env.
Proof.
  destruct (@requirements_file_lines example_files example_directories (fun b => Ok b)
              "requirements.txt"
              ("numpy==1.19" ++ String newline ("scipy" ++ String newline ""))%string
              ("numpy==1.19" ++ String newline ("scipy" ++ String newline ""))%string
              example_env eq_refl eq_refl) as [self' [H1 [H2 _]]].
  exists self'. split; assumption.
Defined.

Lemma save_last_requirement_wins_witness :
  dict_get "bentoml" (dependencies_map "0.13.1" partition_requirement None example_env)
  = Some (Some "0.13.1").
Proof.
  exact (proj1 (@save_last_requirement_wins "0.13.1" partition_requirement None
                  example_env
                  ["numpy==1.19"; "scipy"; ""; "bentoml==0.1"; "pandas"] []
                  "bentoml==0.13.1" eq_refl eq_refl
                  (fun later (H : In later []) => match H with end))).
Defined.

Lemma save_auto_pins_bentoml_witness :
  dict_get "bentoml"
    (dependencies_map "0.13.1" partition_requirement
       (Some ([("bentoml", Some "0.12.0"); ("numpy", Some "1.20")], ["yaml"]))
       example_auto_env)
  = Some (Some "0.13.1").
Proof.
  exact (proj1 (@save_auto_pins_bentoml "0.13.1" partition_requirement
                  (Some ([("bentoml", Some "0.12.0"); ("numpy", Some "1.20")], ["yaml"]))
                  example_auto_env eq_refl)).
Defined.

Lemma init_then_save_bentoml_witness :
  In (requirement_line "bentoml" (Some "0.13.1"))
    (_pip_dependencies (fst (save "0.13.1" partition_requirement None example_env))).
Proof.
  exact (proj2 (@init_then_save_bentoml example_files example_directories example_yaml_load
                  (fun b => Ok b) (fun t => t) "3.7.9" "0.13.1"
                  "bentoml/model-server:0.13.1" partition_requirement
                  (Some ["bentoml==0.1"; "pandas"]) None None None false
                  (Some "requirements.txt") None None None (Some "setup.sh") None
                  example_env None eq_refl eq_refl)).
Defined.

Lemma save_twice_witness :
  _pip_dependencies
    (fst (save "0.13.1" partition_requirement None
            (fst (save "0.13.1" partition_requirement None example_env))))
  = _pip_dependencies (fst (save "0.13.1" partition_requirement None example_env)).
Proof.
  apply (@save_twice "0.13.1" partition_requirement None example_env eq_refl).
  intros name version H. vm_compute in H.
  repeat (destruct H as [H|H]; [inversion H; subst; split; reflexivity|]).
  destruct H.
Defined.
